(** * PyPOTS: data preparation for BRITS and the USGAN training loop

    A shallow embedding of
      - [pypots/imputation/brits/data.py]   (class [DatasetForBRITS]),
      - [pypots/imputation/usgan/model.py]  (class [USGAN]),
      - [pypots/imputation/csdi/model.py]   (class [CSDI]),
      - [pypots/classification/brits/model.py] (class [BRITS]),
    together with the properties the design document states about them.

    Tensors are lists: a matrix [T x F] is a list of [T] rows of [F]
    entries, a batch of samples is a list of matrices.  A feature entry
    is NaN, an infinity or a finite number, here an integer ([fval]),
    held at the floating-point type of its array ([dtype]); the cast to
    float32 and [nan_to_num] act on it as they do in the source, in the
    order the source has them.  Masks and deltas
    are integers (the values 0/1 of a mask and the gap counts are
    represented exactly by the float32 tensors of the source).  Python
    objects are records, mutation is explicit state passing, exceptions
    are the [Raise] case of [result], and what the logger prints and what
    is written to disk is collected, oldest first, in the [trace] of a
    model. *)

From stdpp Require Import gmap strings list.
From Stdlib Require Import ZArith Lia.

(** * Part I: the program *)

(** ** Floating-point values, as far as the code inspects them *)

Inductive fval := NaN | PInf | NInf | Num (z : Z).

(** [torch.isnan] *)
Definition isnan (x : fval) : bool :=
  match x with NaN => true | _ => false end.

(** The floating-point types a data array comes in. *)
Inductive dtype := float32 | float64.

(** The greatest finite float32, [(2 - 2^-23) * 2^127]. *)
Definition FLT_MAX : Z := 2 ^ 128 - 2 ^ 104.

(** The greatest finite float64, [(2 - 2^-52) * 2^1023]. *)
Definition DBL_MAX : Z := 2 ^ 1024 - 2 ^ 971.

(** [torch.finfo(dt).max] *)
Definition finfo_max (dt : dtype) : Z :=
  match dt with
  | float32 => FLT_MAX
  | float64 => DBL_MAX
  end.

(** [torch.nan_to_num] with its default arguments, on a tensor of type
    [dt]: NaN becomes zero, the infinities become the greatest and the
    least finite value of that type; the type of the tensor is kept. *)
Definition nan_to_num (dt : dtype) (x : fval) : fval :=
  match x with
  | NaN => Num 0
  | PInf => Num (finfo_max dt)
  | NInf => Num (- finfo_max dt)
  | Num z => Num z
  end.

(** The nearest number of 24 significant bits to [a >= 0], a tie going
    to the one whose last bit is 0. *)
Definition round24 (a : Z) : Z :=
  let ulp := (2 ^ Z.max 0 (Z.log2 a - 23))%Z in
  let q := (a / ulp)%Z in
  let r := (a mod ulp)%Z in
  if (2 * r <? ulp)%Z then (q * ulp)%Z
  else if (ulp <? 2 * r)%Z then ((q + 1) * ulp)%Z
  else if Z.even q then (q * ulp)%Z
  else ((q + 1) * ulp)%Z.

(** [x.to(torch.float32)]: NaN and the infinities are kept, a finite
    number is rounded to the nearest float32 and overflows to an
    infinity when that is beyond [FLT_MAX]. *)
Definition to_float32 (x : fval) : fval :=
  match x with
  | Num z =>
      let r := round24 (Z.abs z) in
      if (2 ^ 128 <=? r)%Z then (if (z <? 0)%Z then NInf else PInf)
      else Num (Z.sgn z * r)
  | _ => x
  end.

(** [(~torch.isnan(x)).type(torch.float32)]: 1 where observed. *)
Definition observed (x : fval) : Z := if isnan x then 0 else 1.

(** The comparison [a < b] of floats: false whenever a NaN is involved. *)
Definition flt (a b : fval) : bool :=
  match a, b with
  | NaN, _ | _, NaN => false
  | _, NInf => false
  | NInf, _ => true
  | PInf, _ => false
  | Num _, PInf => true
  | Num x, Num y => (x <? y)%Z
  end.

(** [np.equal(x, float("inf"))] *)
Definition is_pinf (x : fval) : bool :=
  match x with PInf => true | _ => false end.

(** ** Exceptions *)

Inductive exn :=
| IndexError
| KeyError (key : string)
| TypeError
| AttributeError
| OSError (path : string)
| RuntimeError       (* "Training got interrupted. Model was not trained. ..." *)
| ValueError         (* "Something is wrong. best_loss is Nan after training." *)
| Exception (e : string).   (* raised by a collaborator *)

Inductive result (A : Type) := Ok (a : A) | Raise (e : exn).
Arguments Ok {A} a.
Arguments Raise {A} e.

Global Instance result_ret : MRet result := λ A a, Ok a.
Global Instance result_bind : MBind result := λ A B f m,
  match m with Ok a => f a | Raise e => Raise e end.
Global Instance result_fmap : FMap result := λ A B f m,
  match m with Ok a => Ok (f a) | Raise e => Raise e end.

(** [l[idx]] on a sequence *)
Definition getitem {A} (l : list A) (idx : nat) : result A :=
  match l !! idx with
  | Some a => Ok a
  | None => Raise IndexError
  end.

(** [d[key]] on a dict *)
Definition dict_get {A} (d : gmap string A) (key : string) : result A :=
  match d !! key with
  | Some a => Ok a
  | None => Raise (KeyError key)
  end.

(** ** Matrices *)

Abbreviation matrix A := (list (list A)).

Definition entry {A} (m : matrix A) (t f : nat) : option A :=
  m !! t ≫= λ row, row !! f.

(** [shape T F m]: [m] has [T] rows of [F] entries each. *)
Definition shape {A} (T F : nat) (m : matrix A) : Prop :=
  length m = T ∧ Forall (λ row, length row = F) m.

(** An elementwise operation on a 2-d and on a 3-d tensor. *)
Definition map2d {A B} (f : A → B) (m : matrix A) : matrix B :=
  fmap (M:=list) (fmap (M:=list) f) m.
Definition map3d {A B} (f : A → B) (x : list (matrix A)) : list (matrix B) :=
  fmap (M:=list) (map2d f) x.

(** [torch.flip(x, dims=[0])] and [torch.flip(x, dims=[1])] *)
Definition flip0 {A} (x : list A) : list A := reverse x.
Definition flip1 {A} (x : list (list A)) : list (list A) :=
  fmap (M:=list) reverse x.

(** ** The delta encoder *)

Module DeltaEncoder.
Section Encoder.
Local Open Scope Z_scope.

(** The fixed per-step unit of elapsed time. *)
Variable step_gap : Z.

(** One step of the recurrence, for all features of a row at once:
    [step_gap] where the preceding step was observed, otherwise the gap
    accumulated so far plus [step_gap]. *)
Definition next_delta (prev_mask prev_delta : list Z) : list Z :=
  zip_with (λ m d, if m =? 1 then step_gap else step_gap + d)
           prev_mask prev_delta.

(** Rows [1 ..] of the encoding, left to right; [prev_mask] and
    [prev_delta] are the mask row and the delta row of the step before. *)
Fixpoint delta_rows (prev_mask prev_delta : list Z) (rest : matrix Z)
  : matrix Z :=
  match rest with
  | [] => []
  | m :: rest' =>
      let d := next_delta prev_mask prev_delta in
      d :: delta_rows m d rest'
  end.

(** Modelled from the spec: [_parse_delta_torch] of [pypots/data/utils.py],
    which [brits/data.py] imports but which is not among the sources.
    Section 4.1: [delta[0,f] = 0]; [delta[t,f] = step_gap] if
    [mask[t-1,f] == 1]; [delta[t,f] = step_gap + delta[t-1,f]] otherwise,
    evaluated left to right, each feature column independently. *)
Definition _parse_delta_torch (mask : matrix Z) : matrix Z :=
  match mask with
  | [] => []
  | m0 :: rest =>
      let d0 := (λ _, 0) <$> m0 in
      d0 :: delta_rows m0 d0 rest
  end.

(** Modelled from the spec: the same function on a batch (a 3-d tensor
    [n_samples x T x F]); section 4.1 defines the encoding of one
    sample, so a batch is encoded sample by sample. *)
Definition _parse_delta_torch_batch (masks : list (matrix Z))
  : list (matrix Z) :=
  _parse_delta_torch <$> masks.

End Encoder.
End DeltaEncoder.

(** ** [DatasetForBRITS] *)

Module DatasetForBRITS.

(** What a dict given as [data], or an opened h5 file, holds: the array
    ["X"] of shape [n_samples x T x F], with its floating-point type,
    and, optionally, the labels ["y"]. *)
Record store := {
  store_dtype : dtype;
  store_X : list (matrix fval);
  store_y : option (list Z);
}.

(** [data : Union[dict, str]] *)
Inductive source := Dict (d : store) | Path (path : string).

(** The entries ["X"], ["missing_mask"], ["delta"] of one direction. *)
Record view := {
  view_X : list (matrix fval);
  view_missing_mask : list (matrix Z);
  view_delta : list (matrix Z);
}.

Record processed := { forward : view; backward : view }.

(** The attributes of a dataset object. *)
Record t := {
  data : source;
  X : option (dtype * list (matrix fval));   (* a tensor and its type *)
  y : option (list Z);
  return_labels : bool;
  file_type : string;
  file_handle : option store;
  processed_data : option processed;
}.

(** An element of a sample: the index or a label (0-d integer tensors),
    or a [T x F] float32 tensor: of features, or of the integers of a
    mask or of a delta. *)
Inductive tensor :=
| Scalar (z : Z)
| Features (m : matrix fval)
| Matrix (m : matrix Z).

Definition set_file_handle (h : option store) (self : t) : t :=
  {| data := data self; X := X self; y := y self;
     return_labels := return_labels self; file_type := file_type self;
     file_handle := h; processed_data := processed_data self |}.

Definition set_processed_data (p : option processed) (self : t) : t :=
  {| data := data self; X := X self; y := y self;
     return_labels := return_labels self; file_type := file_type self;
     file_handle := file_handle self; processed_data := p |}.

(** Modelled from the spec: [BaseDataset.__init__] of
    [pypots/data/base.py], not among the sources.  Section 4.3: an eager
    dataset holds the arrays of the dict, a lazy one holds the path and
    opens no handle before the first access.  The array is held as the
    dict gives it, at its own type: the first cast the sources have is
    the one [__init__] applies after [nan_to_num]. *)
Definition BaseDataset__init__
    (data_ : source) (return_labels_ : bool) (file_type_ : string) : t :=
  match data_ with
  | Dict d =>
      {| data := data_; X := Some (store_dtype d, store_X d); y := store_y d;
         return_labels := return_labels_; file_type := file_type_;
         file_handle := None; processed_data := None |}
  | Path _ =>
      {| data := data_; X := None; y := None;
         return_labels := return_labels_; file_type := file_type_;
         file_handle := None; processed_data := None |}
  end.

(** Modelled from the spec: [BaseDataset._open_file_handle], not among
    the sources.  Section 4.3: opens a private handle to the store the
    path names. *)
Definition _open_file_handle (fs : gmap string store) (self : t)
  : result store :=
  match data self with
  | Path p =>
      match fs !! p with
      | Some h => Ok h
      | None => Raise (OSError p)
      end
  | Dict _ => Raise TypeError
  end.

Section WithStepGap.

(** The unit of the encoder the dataset calls. *)
Variable step_gap : Z.

Definition __init__
    (data_ : source) (return_labels_ : bool) (file_type_ : string) : t :=
  let self := BaseDataset__init__ data_ return_labels_ file_type_ in
  match data self, X self with
  | Dict _, Some (self_X_dtype, self_X) =>
      (* calculate all delta here. *)
      let forward_missing_mask := map3d observed self_X in
      let forward_X := map3d (nan_to_num self_X_dtype) self_X in
      let forward_delta :=
        DeltaEncoder._parse_delta_torch_batch step_gap forward_missing_mask in
      let backward_X := flip1 forward_X in
      let backward_missing_mask := flip1 forward_missing_mask in
      let backward_delta :=
        DeltaEncoder._parse_delta_torch_batch step_gap backward_missing_mask in
      (* the mask is float32 by its [.type(torch.float32)], and so is
         the delta computed from it: their [.to(torch.float32)] returns
         them; that of the features is a cast from the type of
         [self.X] *)
      set_processed_data
        (Some {| forward := {| view_X := map3d to_float32 forward_X;
                               view_missing_mask := forward_missing_mask;
                               view_delta := forward_delta |};
                 backward := {| view_X := map3d to_float32 backward_X;
                                view_missing_mask := backward_missing_mask;
                                view_delta := backward_delta |} |})
        self
  | _, _ => self
  end.

Definition _fetch_data_from_array (self : t) (idx : nat)
  : result (list tensor) :=
  match processed_data self with
  | None => Raise AttributeError
  | Some pd =>
      fX ← getitem (view_X (forward pd)) idx;
      fM ← getitem (view_missing_mask (forward pd)) idx;
      fD ← getitem (view_delta (forward pd)) idx;
      bX ← getitem (view_X (backward pd)) idx;
      bM ← getitem (view_missing_mask (backward pd)) idx;
      bD ← getitem (view_delta (backward pd)) idx;
      let sample :=
        [ Scalar (Z.of_nat idx);
          (* for forward *)
          Features fX; Matrix fM; Matrix fD;
          (* for backward *)
          Features bX; Matrix bM; Matrix bD ] in
      match y self, return_labels self with
      | Some self_y, true =>
          label ← getitem self_y idx;
          Ok (sample ++ [Scalar label])
      | _, _ => Ok sample
      end
  end.

Definition _fetch_data_from_file
    (fs : gmap string store) (self : t) (idx : nat)
  : t * result (list tensor) :=
  let opened :=
    match file_handle self with
    | None =>
        h ← _open_file_handle fs self;
        Ok (set_file_handle (Some h) self, h)
    | Some h => Ok (self, h)
    end in
  match opened with
  | Raise e => (self, Raise e)
  | Ok (self, h) =>
      (self,
       raw ← getitem (store_X h) idx;
       let x := map2d to_float32 raw in
       let missing_mask := map2d observed x in
       let x := map2d (nan_to_num float32) x in
       let forward_X := x in
       let forward_missing_mask := missing_mask in
       let forward_deltas :=
         DeltaEncoder._parse_delta_torch step_gap missing_mask in
       let backward_X := flip0 forward_X in
       let backward_missing_mask := flip0 forward_missing_mask in
       let backward_deltas :=
         DeltaEncoder._parse_delta_torch step_gap backward_missing_mask in
       let sample :=
         [ Scalar (Z.of_nat idx);
           (* for forward *)
           Features forward_X; Matrix forward_missing_mask;
           Matrix forward_deltas;
           (* for backward *)
           Features backward_X; Matrix backward_missing_mask;
           Matrix backward_deltas ] in
       (* if the dataset has labels and is for training, then fetch it
          from the file *)
       match store_y h, return_labels self with
       | Some file_y, true =>
           label ← getitem file_y idx;
           Ok (sample ++ [Scalar label])
       | _, _ => Ok sample
       end)
  end.

(** Modelled from the spec: [BaseDataset.__getitem__], not among the
    sources.  Section 4.3: a dataset given as a path fetches lazily from
    the file, one given as a dict fetches from the arrays. *)
Definition __getitem__ (fs : gmap string store) (self : t) (idx : nat)
  : t * result (list tensor) :=
  match data self with
  | Path _ => _fetch_data_from_file fs self idx
  | Dict _ => (self, _fetch_data_from_array self idx)
  end.

End WithStepGap.
End DatasetForBRITS.

(** ** Neural-network models: attributes, logger, checkpoints *)

Inductive level := Info | Warning | Error.

(** The messages the code formats. *)
Inductive message :=
| MsgEpoch (epoch : nat) (loss_G loss_D : fval)
    (* "epoch {epoch}: training loss_generator ..., train loss_discriminator ..." *)
| MsgPatience
    (* "Exceeded the training patience. Terminating the training procedure..." *)
| MsgException (e : string)          (* "Exception: {e}" *)
| MsgFinished                        (* "Finished training." *)
| MsgDeprecated (method : string).
    (* "DeprecationWarning: The method {method} is deprecated. Please use `predict` instead." *)

(** The name of a checkpoint file: the class name alone, or
    ["{class name}_epoch{epoch}_loss{mean_loss}"]. *)
Inductive saving_name :=
| ClassName (cls : string)
| EpochLossName (cls : string) (epoch : nat) (loss : fval).

(** What a run leaves behind: a line of the logger, or a checkpoint
    written under [path] holding the parameters [sd]. *)
Inductive event (state_dict : Type) :=
| Logged (lvl : level) (msg : message)
| Saved (path : string) (name : saving_name) (sd : state_dict).
Arguments Logged {state_dict} lvl msg.
Arguments Saved {state_dict} path name sd.

(** [model_saving_strategy] is one of [None], ["best"], ["better"]. *)
Inductive strategy := best | better.

(** The attributes the training loop reads and writes.  [patience] and
    [original_patience] are integers: the loop decrements and compares
    them.  [model] is the current parameters of [self.model],
    [training] its mode ([train()] or [eval()]). *)
Record BaseNNModel (state_dict : Type) := {
  epochs : nat;
  patience : Z;
  original_patience : Z;
  saving_path : option string;
  model_saving_strategy : option strategy;
  model : state_dict;
  training : bool;
  best_loss : fval;
  best_model_dict : option state_dict;
  trace : list (event state_dict);
}.
Arguments epochs {state_dict} _.
Arguments patience {state_dict} _.
Arguments original_patience {state_dict} _.
Arguments saving_path {state_dict} _.
Arguments model_saving_strategy {state_dict} _.
Arguments model {state_dict} _.
Arguments training {state_dict} _.
Arguments best_loss {state_dict} _.
Arguments best_model_dict {state_dict} _.
Arguments trace {state_dict} _.

Module BaseNN.
Section BaseNN.
Context {state_dict : Type}.
Local Abbreviation self_t := (BaseNNModel state_dict).

Definition set_patience (p : Z) (self : self_t) : self_t :=
  {| epochs := epochs self; patience := p;
     original_patience := original_patience self;
     saving_path := saving_path self;
     model_saving_strategy := model_saving_strategy self;
     model := model self; training := training self;
     best_loss := best_loss self;
     best_model_dict := best_model_dict self; trace := trace self |}.

Definition set_model (sd : state_dict) (self : self_t) : self_t :=
  {| epochs := epochs self; patience := patience self;
     original_patience := original_patience self;
     saving_path := saving_path self;
     model_saving_strategy := model_saving_strategy self;
     model := sd; training := training self;
     best_loss := best_loss self;
     best_model_dict := best_model_dict self; trace := trace self |}.

Definition set_training (b : bool) (self : self_t) : self_t :=
  {| epochs := epochs self; patience := patience self;
     original_patience := original_patience self;
     saving_path := saving_path self;
     model_saving_strategy := model_saving_strategy self;
     model := model self; training := b;
     best_loss := best_loss self;
     best_model_dict := best_model_dict self; trace := trace self |}.

Definition set_best_loss (l : fval) (self : self_t) : self_t :=
  {| epochs := epochs self; patience := patience self;
     original_patience := original_patience self;
     saving_path := saving_path self;
     model_saving_strategy := model_saving_strategy self;
     model := model self; training := training self;
     best_loss := l;
     best_model_dict := best_model_dict self; trace := trace self |}.

Definition set_best_model_dict (d : option state_dict) (self : self_t)
  : self_t :=
  {| epochs := epochs self; patience := patience self;
     original_patience := original_patience self;
     saving_path := saving_path self;
     model_saving_strategy := model_saving_strategy self;
     model := model self; training := training self;
     best_loss := best_loss self;
     best_model_dict := d; trace := trace self |}.

(** Append one event to the trace. *)
Definition emit (ev : event state_dict) (self : self_t) : self_t :=
  {| epochs := epochs self; patience := patience self;
     original_patience := original_patience self;
     saving_path := saving_path self;
     model_saving_strategy := model_saving_strategy self;
     model := model self; training := training self;
     best_loss := best_loss self;
     best_model_dict := best_model_dict self;
     trace := trace self ++ [ev] |}.

(** [logger.info], [logger.warning], [logger.error] *)
Definition logger (lvl : level) (msg : message) (self : self_t) : self_t :=
  emit (Logged lvl msg) self.

(** [self.save_model(saving_path)]: the current parameters of the model
    go to disk. *)
Definition save_model (path : string) (name : saving_name) (self : self_t)
  : self_t :=
  emit (Saved path name (model self)) self.

(** Modelled from the spec: [BaseModel._auto_save_model_if_necessary] of
    [pypots/base.py], not among the sources.  Section 4.6: [none] is a
    no-op always; [best] writes only when [training_finished] is true;
    [better] writes on every improving epoch, that is at the calls the
    loop makes with [training_finished=False] (sections 3 and 8: under
    [better] the records written are those of the improving epochs).
    The docstring of the class adds: "Will not save if [saving_path is]
    not given".  Without [saving_name] the file is named after the
    class. *)
Definition _auto_save_model_if_necessary
    (cls : string) (training_finished : bool)
    (saving_name_ : option saving_name) (self : self_t) : self_t :=
  match saving_path self, model_saving_strategy self with
  | Some path, Some strat =>
      let name := default (ClassName cls) saving_name_ in
      match strat with
      | best =>
          if training_finished then save_model path name self else self
      | better =>
          if training_finished then self else save_model path name self
      end
  | _, _ => self
  end.

End BaseNN.
End BaseNN.

(** ** [USGAN] *)

(** What one pass through the body of the epoch loop, up to the means of
    the collected losses, comes to: the two means and the parameters the
    optimizer steps leave in [self.model], or an [Exception] raised on
    the way (by the loader, the model, an optimizer). *)
Inductive epoch_outcome (state_dict : Type) :=
| EpochDone (mean_epoch_train_G_loss mean_epoch_train_D_loss : fval)
            (sd : state_dict)
| EpochRaised (e : string).
Arguments EpochDone {state_dict} _ _ sd.
Arguments EpochRaised {state_dict} e.

(** How the body of a [for] loop ends. *)
Inductive control := Next | Break | Raised (e : string).

Module USGAN.
Section USGAN.
Import BaseNN.
Context {state_dict loader : Type}.
Local Abbreviation self_t := (BaseNNModel state_dict).

(** [run_epoch training_loader epoch]: the outcome of pass [epoch] of
    the loop over [range(self.epochs)] in the run at hand.
    [self.model.state_dict()] is read as the model contract has it: it
    returns the parameters as they are at the time of the call. *)
Variable run_epoch : loader → nat → epoch_outcome state_dict.

(** [self.__class__.__name__] *)
Definition __class____name__ : string := "USGAN".

(** The body of [for epoch in range(self.epochs)]. *)
Definition epoch_body (training_loader : loader) (epoch : nat)
    (self : self_t) : self_t * control :=
  let self := set_training true self in              (* self.model.train() *)
  match run_epoch training_loader epoch with
  | EpochRaised e => (self, Raised e)
  | EpochDone mean_epoch_train_G_loss mean_epoch_train_D_loss sd =>
      let self := set_model sd self in
      let self :=
        logger Info
          (MsgEpoch epoch mean_epoch_train_G_loss mean_epoch_train_D_loss)
          self in
      let mean_loss := mean_epoch_train_G_loss in
      if flt mean_loss (best_loss self) then
        let self := set_best_loss mean_loss self in
        let self := set_best_model_dict (Some (model self)) self in
        let self := set_patience (original_patience self) self in
        (* save the model if necessary *)
        let self :=
          _auto_save_model_if_necessary __class____name__ false
            (Some (EpochLossName __class____name__ epoch mean_loss))
            self in
        (self, Next)
      else
        let self := set_patience (patience self - 1) self in
        if (patience self =? 0)%Z then
          (logger Info MsgPatience self, Break)
        else (self, Next)
  end.

(** [for epoch in ...: body], left by [break] or by an exception. *)
Fixpoint epoch_loop (training_loader : loader) (range : list nat)
    (self : self_t) : self_t * control :=
  match range with
  | [] => (self, Next)
  | epoch :: range' =>
      match epoch_body training_loader epoch self with
      | (self, Next) => epoch_loop training_loader range' self
      | (self, c) => (self, c)
      end
  end.

Definition _train_model (training_loader : loader)
    (val_loader : option loader) (self : self_t) : self_t * result unit :=
  (* each training starts from the very beginning, so reset the loss
     and model dict here *)
  let self := set_best_loss PInf self in
  let self := set_best_model_dict None self in
  let '(self, c) :=
    epoch_loop training_loader (seq 0 (epochs self)) self in
  let '(self, handled) :=
    match c with
    | Raised e =>
        let self := logger Error (MsgException e) self in
        match best_model_dict self with
        | None => (self, Raise RuntimeError)
        | Some _ =>
            (* the expression statement [RuntimeWarning(...)]: an
               object is built and dropped *)
            (self, Ok ())
        end
    | _ => (self, Ok ())
    end in
  match handled with
  | Raise e => (self, Raise e)
  | Ok _ =>
      if is_pinf (best_loss self) then (self, Raise ValueError)
      else (logger Info MsgFinished self, Ok ())
  end.

(** [fit], from step 2 on; step 1 wraps [train_set] and [val_set] into
    the two loaders ([val_loader] is [None] when no [val_set] is
    given). *)
Definition fit (training_loader : loader) (val_loader : option loader)
    (self : self_t) : self_t * result unit :=
  (* Step 2: train the model and freeze it *)
  match _train_model training_loader val_loader self with
  | (self, Raise e) => (self, Raise e)
  | (self, Ok _) =>
      match best_model_dict self with
      | None => (self, Raise TypeError)     (* load_state_dict(None) *)
      | Some sd =>
          let self := set_model sd self in
          let self := set_training false self in
          (* Step 3: save the model if necessary *)
          (_auto_save_model_if_necessary __class____name__ true None self,
           Ok ())
      end
  end.

Context {dataset batch array : Type}.

(** [DatasetForUSGAN(test_set, return_labels=False, file_type)] in a
    [DataLoader] that keeps the order: the batches, or the exception of
    the construction. *)
Variable test_loader : dataset → string → result (list batch).
(** [self.model.forward(self._assemble_input_for_testing(data),
    training=False)] *)
Variable forward : state_dict → batch → result (gmap string array).
(** [torch.cat(collector).cpu().detach().numpy()] *)
Variable cat : list array → result array.

Definition predict (test_set : dataset) (file_type : string)
    (self : self_t) : self_t * result (gmap string array) :=
  let self := set_training false self in             (* self.model.eval() *)
  (self,
   batches ← test_loader test_set file_type;
   imputation_collector ←
     mapM (λ data,
             results ← forward (model self) data;
             dict_get results "imputed_data") batches;
   imputation ← cat imputation_collector;
   mret {[ "imputation"%string := imputation ]}).

Definition impute (X : dataset) (file_type : string) (self : self_t)
  : self_t * result array :=
  let self := logger Warning (MsgDeprecated "impute") self in
  let '(self, results_dict) := predict X file_type self in
  (self, results_dict ≫= λ d, dict_get d "imputation").

End USGAN.
End USGAN.

(** ** [CSDI] *)

Module CSDI.
Section CSDI.
Import BaseNN.
Context {state_dict dataset batch array : Type}.
Local Abbreviation self_t := (BaseNNModel state_dict).

(** [DatasetForCSDI(test_set, return_labels=False, file_type)] in a
    [DataLoader] that keeps the order. *)
Variable test_loader : dataset → string → result (list batch).
(** [self.model(self._assemble_input_for_testing(data), training=False,
    n_sampling_times=n_sampling_times)] *)
Variable forward : state_dict → batch → nat → result (gmap string array).
Variable cat : list array → result array.

Definition predict (test_set : dataset) (file_type : string)
    (n_sampling_times : nat) (self : self_t)
  : self_t * result (gmap string array) :=
  (* Step 1: wrap the input data with classes Dataset and DataLoader *)
  let self := set_training false self in
  (self,
   batches ← test_loader test_set file_type;
   (* Step 2: process the data with the model *)
   imputation_collector ←
     mapM (λ data,
             results ← forward (model self) data n_sampling_times;
             dict_get results "imputed_data") batches;
   (* Step 3: output collection and return *)
   imputation ← cat imputation_collector;
   mret {[ "imputation"%string := imputation ]}).

(** [impute] leaves [n_sampling_times] to its default, 1. *)
Definition impute (X : dataset) (file_type : string) (self : self_t)
  : self_t * result array :=
  let self := logger Warning (MsgDeprecated "impute") self in
  let '(self, results_dict) := predict X file_type 1 self in
  (self, results_dict ≫= λ d, dict_get d "imputation").

End CSDI.
End CSDI.

(** ** [BRITS], the classifier *)

Module BRITS.
Section BRITS.
Import BaseNN.
Context {state_dict dataset batch array : Type}.
Local Abbreviation self_t := (BaseNNModel state_dict).

(** [DatasetForBRITS(test_set, return_labels=False, file_type)] in a
    [DataLoader] that keeps the order. *)
Variable test_loader : dataset → string → result (list batch).
Variable forward : state_dict → batch → result (gmap string array).
Variable cat : list array → result array.

Definition predict (test_set : dataset) (file_type : string)
    (self : self_t) : self_t * result (gmap string array) :=
  let self := set_training false self in
  (self,
   batches ← test_loader test_set file_type;
   classification_collector ←
     mapM (λ data,
             results ← forward (model self) data;
             dict_get results "classification_pred") batches;
   classification ← cat classification_collector;
   mret {[ "classification"%string := classification ]}).

Definition classify (X : dataset) (file_type : string) (self : self_t)
  : self_t * result array :=
  let self := logger Warning (MsgDeprecated "classify") self in
  let '(self, result_dict) := predict X file_type self in
  (self, result_dict ≫= λ d, dict_get d "classification").

End BRITS.
End BRITS.

(** ** Notions the statements of Part II use *)

Section SampleNotions.
Import DatasetForBRITS.
Variable step_gap : Z.
Local Abbreviation encode := (DeltaEncoder._parse_delta_torch step_gap).

(** The two ways a sample is fetched: from the arrays of a dict, of
    type [dt], or from a file. *)
Inductive fetch := Eager (dt : dtype) | Lazy.

(** The features of a sample, as each way leaves them: from the arrays
    [nan_to_num] runs at the type of the array and the cast to float32
    follows; from a file the cast comes first. *)
Definition features (how : fetch) (raw : matrix fval) : matrix fval :=
  match how with
  | Eager dt => map2d to_float32 (map2d (nan_to_num dt) raw)
  | Lazy => map2d (nan_to_num float32) (map2d to_float32 raw)
  end.

(** The seven tensors of the sample of index [idx] whose raw features
    are [raw]: the index, then features, mask and delta of the forward
    and of the backward view. *)
Definition sample7 (how : fetch) (idx : nat) (raw : matrix fval)
  : list tensor :=
  [ Scalar (Z.of_nat idx);
    Features (features how raw);
    Matrix (map2d observed raw);
    Matrix (encode (map2d observed raw));
    Features (flip0 (features how raw));
    Matrix (flip0 (map2d observed raw));
    Matrix (encode (flip0 (map2d observed raw))) ].

(** The label the sample ends with, if any. *)
Definition label_part (labels : option (list Z)) (return_labels_ : bool)
    (idx : nat) : result (list tensor) :=
  match labels, return_labels_ with
  | Some ys, true => label ← getitem ys idx; Ok [Scalar label]
  | _, _ => Ok []
  end.

(** [d] is the store behind [data_]: the dict itself, or the file at
    the path. *)
Definition backs (fs : gmap string store) (data_ : source) (d : store)
  : Prop :=
  match data_ with
  | Dict d' => d' = d
  | Path p => fs !! p = Some d
  end.

(** The way [__getitem__] fetches from [data_], backed by [d]. *)
Definition fetch_of (data_ : source) (d : store) : fetch :=
  match data_ with
  | Dict _ => Eager (store_dtype d)
  | Path _ => Lazy
  end.

End SampleNotions.

(** What a trace shows: the epochs reported, the checkpoints written,
    the warnings logged. *)
Definition epochs_logged {state_dict} (tr : list (event state_dict))
  : list nat :=
  omap (λ ev, match ev with
              | Logged Info (MsgEpoch e _ _) => Some e
              | _ => None
              end) tr.

Definition saves {state_dict} (tr : list (event state_dict))
  : list (string * saving_name * state_dict) :=
  omap (λ ev, match ev with
              | Saved path name sd => Some (path, name, sd)
              | _ => None
              end) tr.

Definition warnings {state_dict} (tr : list (event state_dict))
  : list message :=
  omap (λ ev, match ev with
              | Logged Warning msg => Some msg
              | _ => None
              end) tr.

Section ConfigNotions.
Context {state_dict : Type}.
Local Abbreviation self_t := (BaseNNModel state_dict).

(** The configuration of a model: what no step of the training
    changes. *)
Definition same_config (s s' : self_t) : Prop :=
  epochs s' = epochs s ∧ original_patience s' = original_patience s ∧
  saving_path s' = saving_path s ∧
  model_saving_strategy s' = model_saving_strategy s.

End ConfigNotions.

(** ** Inputs used in examples *)

Module Examples.
Import DatasetForBRITS.

(** Two features over five steps. *)
Definition mask52 : matrix Z :=
  [[1; 0]; [0; 1]; [0; 0]; [1; 1]; [0; 0]]%Z.

(** One sample with one feature, observed at steps 0 and 3 only: its
    mask is the gap pattern [1,0,0,1,0]. *)
Definition gap_sample : matrix fval :=
  [[Num 5]; [NaN]; [NaN]; [Num 7]; [NaN]].

Definition gap_store : store :=
  {| store_dtype := float64; store_X := [gap_sample];
     store_y := Some [1%Z] |}.

Definition gap_files : gmap string store :=
  {[ "gap.h5"%string := gap_store ]}.

(** One sample of float64 data with an infinite entry and a finite one
    beyond the range of float32. *)
Definition wide_sample : matrix fval :=
  [[PInf]; [Num (2 ^ 200)]; [Num 5]; [NaN]].

Definition wide_store : store :=
  {| store_dtype := float64; store_X := [wide_sample]; store_y := None |}.

Definition wide_files : gmap string store :=
  {[ "wide.h5"%string := wide_store ]}.

(** A model of [epochs_] epochs as its constructor leaves it, with
    natural numbers for parameters. *)
Definition fresh (epochs_ : nat) (patience_ : Z) (path : option string)
    (strat : option strategy) : BaseNNModel nat :=
  {| epochs := epochs_; patience := patience_;
     original_patience := patience_; saving_path := path;
     model_saving_strategy := strat; model := 0%nat; training := false;
     best_loss := PInf; best_model_dict := None; trace := [] |}.

(** A run whose generator loss is 3, 2, 1 in epochs 0, 1, 2 and stays
    at 1 from then on; epoch [e] leaves the parameters [100 + e]. *)
Definition improving_then_flat (_ : unit) (epoch : nat)
  : epoch_outcome nat :=
  EpochDone (Num (Z.of_nat (3 - epoch) `max` 1)) (Num 0) (100 + epoch)%nat.

(** The same run with a fault injected in epoch [k]. *)
Definition faulty_at (k : nat) (_ : unit) (epoch : nat)
  : epoch_outcome nat :=
  if (epoch =? k)%nat then EpochRaised "fault"
  else improving_then_flat () epoch.

(** A run whose loss is never a number. *)
Definition never_improving (_ : unit) (epoch : nat) : epoch_outcome nat :=
  EpochDone NaN NaN epoch.

End Examples.

(** ** Assembling the inputs of a model *)

(** A value of the dict of inputs: a tensor, or a dict of tensors. *)
Inductive input (T : Type) := Tensor (x : T) | Group (d : gmap string T).
Arguments Tensor {T} x.
Arguments Group {T} d.

Section Assemble.
Context {T : Type}.

(** Modelled from the spec: [BaseModel._send_data_to_given_device] of
    [pypots/base.py], not among the sources.  Section 2: the batch is
    placed on the device, element by element. *)
Variable to_device : T → T.

Definition _send_data_to_given_device (data : list T) : list T :=
  to_device <$> data.

(** [torch.Tensor.permute(0, 2, 1)] *)
Variable permute_0_2_1 : T → T.

(** [USGAN._assemble_input_for_training]: the unpacking of the data into
    seven names raises [ValueError] on any other number of elements. *)
Definition USGAN_assemble_input_for_training (data : list T)
  : result (gmap string (input T)) :=
  (* fetch data *)
  match _send_data_to_given_device data with
  | [indices; X; missing_mask; deltas;
     back_X; back_missing_mask; back_deltas] =>
      (* assemble input data *)
      Ok {[ "indices"%string := Tensor indices;
            "forward"%string :=
              Group {[ "X"%string := X;
                       "missing_mask"%string := missing_mask;
                       "deltas"%string := deltas ]};
            "backward"%string :=
              Group {[ "X"%string := back_X;
                       "missing_mask"%string := back_missing_mask;
                       "deltas"%string := back_deltas ]} ]}
  | _ => Raise ValueError
  end.

Definition USGAN_assemble_input_for_validating (data : list T)
  : result (gmap string (input T)) :=
  USGAN_assemble_input_for_training data.

Definition USGAN_assemble_input_for_testing (data : list T)
  : result (gmap string (input T)) :=
  USGAN_assemble_input_for_validating data.

(** [BRITS._assemble_input_for_training] of the classifier: eight
    names, the last one the label. *)
Definition BRITS_assemble_input_for_training (data : list T)
  : result (gmap string (input T)) :=
  (* fetch data *)
  match _send_data_to_given_device data with
  | [indices; X; missing_mask; deltas;
     back_X; back_missing_mask; back_deltas; label] =>
      (* assemble input data *)
      Ok {[ "indices"%string := Tensor indices;
            "label"%string := Tensor label;
            "forward"%string :=
              Group {[ "X"%string := X;
                       "missing_mask"%string := missing_mask;
                       "deltas"%string := deltas ]};
            "backward"%string :=
              Group {[ "X"%string := back_X;
                       "missing_mask"%string := back_missing_mask;
                       "deltas"%string := back_deltas ]} ]}
  | _ => Raise ValueError
  end.

Definition BRITS_assemble_input_for_validating (data : list T)
  : result (gmap string (input T)) :=
  BRITS_assemble_input_for_training data.

Definition BRITS_assemble_input_for_testing (data : list T)
  : result (gmap string (input T)) :=
  (* fetch data *)
  match _send_data_to_given_device data with
  | [indices; X; missing_mask; deltas;
     back_X; back_missing_mask; back_deltas] =>
      (* assemble input data *)
      Ok {[ "indices"%string := Tensor indices;
            "forward"%string :=
              Group {[ "X"%string := X;
                       "missing_mask"%string := missing_mask;
                       "deltas"%string := deltas ]};
            "backward"%string :=
              Group {[ "X"%string := back_X;
                       "deltas"%string := back_deltas;
                       "missing_mask"%string := back_missing_mask ]} ]}
  | _ => Raise ValueError
  end.

(** [CSDI._assemble_input_for_training]: seven names, of which
    [indices] does not go into the inputs. *)
Definition CSDI_assemble_input_for_training (data : list T)
  : result (gmap string T) :=
  match _send_data_to_given_device data with
  | [indices; observed_data; observed_mask; observed_tp;
     gt_mask; for_pattern_mask; cut_length] =>
      Ok {[ "observed_data"%string := permute_0_2_1 observed_data;
            "observed_mask"%string := permute_0_2_1 observed_mask;
            "observed_tp"%string := observed_tp;
            "gt_mask"%string := permute_0_2_1 gt_mask;
            "for_pattern_mask"%string := for_pattern_mask;
            "cut_length"%string := cut_length ]}
  | _ => Raise ValueError
  end.

Definition CSDI_assemble_input_for_validating (data : list T)
  : result (gmap string T) :=
  CSDI_assemble_input_for_training data.

Definition CSDI_assemble_input_for_testing (data : list T)
  : result (gmap string T) :=
  CSDI_assemble_input_for_validating data.

End Assemble.

(** ** The steps of an epoch of [USGAN._train_model] *)

(** [np.mean] of a list of floats: NaN for the empty list (with a
    warning), the element itself for a list of one, NaN as soon as one
    element is NaN; [mean_rest] stands for the float arithmetic on two or
    more values none of which is NaN. *)
Definition np_mean (mean_rest : list fval → fval) (l : list fval) : fval :=
  match l with
  | [] => NaN
  | [x] => x
  | _ => if existsb isnan l then NaN else mean_rest l
  end.

(** [ZeroDivisionError], an [Exception]. *)
Definition ZeroDivisionError : exn := Exception "ZeroDivisionError".

Module USGANSteps.

(** The local variables of [_train_model] that outlive an epoch, and
    the calls of [_save_log_into_tb_file]: the step and the two losses
    of each. *)
Record locals := {
  training_step : nat;
  epoch_train_loss_G_collector : list fval;
  epoch_train_loss_D_collector : list fval;
  tb_file : list (nat * fval * fval);
}.

Section Steps.
Import BaseNN.
Context {state_dict T : Type}.
Local Abbreviation self_t := (BaseNNModel state_dict).

Variable to_device : T → T.
(** [self.G_steps], [self.D_steps] *)
Variable G_steps D_steps : Z.
(** [self.summary_writer is not None] *)
Variable summary_writer : bool.
(** [G_optimizer.zero_grad()], the forward pass with
    [training_object="generator"], [backward()], [G_optimizer.step()]
    and [results["generation_loss"].item()]: the loss and the
    parameters they leave, or the exception one of them raises. *)
Variable generator_step :
  state_dict → gmap string (input T) → result (fval * state_dict).
(** The same for the discriminator. *)
Variable discriminator_step :
  state_dict → gmap string (input T) → result (fval * state_dict).
Variable mean_rest : list fval → fval.
(** [f"{e}"] *)
Variable str : exn → string.

(** [idx % steps == 0] *)
Definition divides (steps : Z) (idx : nat) : result bool :=
  if (steps =? 0)%Z then Raise ZeroDivisionError
  else Ok (Z.of_nat idx mod steps =? 0)%Z.

(** The body of [for idx, data in enumerate(training_loader)]. *)
Definition batch_body (idx : nat) (data : list T)
    (st : state_dict * locals) : (state_dict * locals) * result unit :=
  let '(sd, loc) := st in
  let training_step_ := S (training_step loc) in
  let loc := {| training_step := training_step_;
                epoch_train_loss_G_collector :=
                  epoch_train_loss_G_collector loc;
                epoch_train_loss_D_collector :=
                  epoch_train_loss_D_collector loc;
                tb_file := tb_file loc |} in
  match USGAN_assemble_input_for_training to_device data with
  | Raise e => ((sd, loc), Raise e)
  | Ok inputs =>
      let after_G :=
        match divides G_steps idx with
        | Raise e => Raise e
        | Ok true =>
            '(loss, sd') ← generator_step sd inputs; Ok (sd', [loss])
        | Ok false => Ok (sd, [])
        end in
      match after_G with
      | Raise e => ((sd, loc), Raise e)
      | Ok (sd, step_train_loss_G_collector) =>
          let after_D :=
            match divides D_steps idx with
            | Raise e => Raise e
            | Ok true =>
                '(loss, sd') ← discriminator_step sd inputs;
                Ok (sd', [loss])
            | Ok false => Ok (sd, [])
            end in
          match after_D with
          | Raise e => ((sd, loc), Raise e)
          | Ok (sd, step_train_loss_D_collector) =>
              let mean_step_train_D_loss :=
                np_mean mean_rest step_train_loss_D_collector in
              let mean_step_train_G_loss :=
                np_mean mean_rest step_train_loss_G_collector in
              let loc :=
                {| training_step := training_step_;
                   epoch_train_loss_G_collector :=
                     epoch_train_loss_G_collector loc ++
                       [mean_step_train_G_loss];
                   epoch_train_loss_D_collector :=
                     epoch_train_loss_D_collector loc ++
                       [mean_step_train_D_loss];
                   (* save training loss logs into the tensorboard file
                      for every step if in need *)
                   tb_file :=
                     if summary_writer then
                       tb_file loc ++
                         [(training_step_, mean_step_train_G_loss,
                           mean_step_train_D_loss)]
                     else tb_file loc |} in
              ((sd, loc), Ok ())
          end
      end
  end.

(** [for idx, data in enumerate(training_loader)], from [idx] on. *)
Fixpoint batch_loop (idx : nat) (batches : list (list T))
    (st : state_dict * locals) : (state_dict * locals) * result unit :=
  match batches with
  | [] => (st, Ok ())
  | data :: batches' =>
      match batch_body idx data st with
      | (st, Ok _) => batch_loop (S idx) batches' st
      | (st, Raise e) => (st, Raise e)
      end
  end.

(** The body of [for epoch in range(self.epochs)]; [training_loader
    epoch] is what the iteration over the loader yields in that epoch
    (the loader of [fit] shuffles). *)
Definition epoch_body (training_loader : nat → list (list T))
    (epoch : nat) (st : self_t * locals) : (self_t * locals) * control :=
  let '(self, loc) := st in
  let self := set_training true self in                (* self.model.train() *)
  match batch_loop 0 (training_loader epoch) (model self, loc) with
  | ((sd, loc), Raise e) => ((set_model sd self, loc), Raised (str e))
  | ((sd, loc), Ok _) =>
      let self := set_model sd self in
      let mean_epoch_train_D_loss :=
        np_mean mean_rest (epoch_train_loss_D_collector loc) in
      let mean_epoch_train_G_loss :=
        np_mean mean_rest (epoch_train_loss_G_collector loc) in
      let self :=
        logger Info
          (MsgEpoch epoch mean_epoch_train_G_loss mean_epoch_train_D_loss)
          self in
      let mean_loss := mean_epoch_train_G_loss in
      if flt mean_loss (best_loss self) then
        let self := set_best_loss mean_loss self in
        let self := set_best_model_dict (Some (model self)) self in
        let self := set_patience (original_patience self) self in
        (* save the model if necessary *)
        let self :=
          _auto_save_model_if_necessary USGAN.__class____name__ false
            (Some (EpochLossName USGAN.__class____name__ epoch mean_loss))
            self in
        ((self, loc), Next)
      else
        let self := set_patience (patience self - 1) self in
        if (patience self =? 0)%Z then
          ((logger Info MsgPatience self, loc), Break)
        else ((self, loc), Next)
  end.

Fixpoint epoch_loop (training_loader : nat → list (list T))
    (range : list nat) (st : self_t * locals)
  : (self_t * locals) * control :=
  match range with
  | [] => (st, Next)
  | epoch :: range' =>
      match epoch_body training_loader epoch st with
      | (st, Next) => epoch_loop training_loader range' st
      | (st, c) => (st, c)
      end
  end.

(** [_train_model], with the steps of each epoch. *)
Definition _train_model (training_loader : nat → list (list T))
    (val_loader : option (list (list T))) (self : self_t)
  : (self_t * locals) * result unit :=
  (* each training starts from the very beginning, so reset the loss
     and model dict here *)
  let self := set_best_loss PInf self in
  let self := set_best_model_dict None self in
  let loc := {| training_step := 0;
                epoch_train_loss_G_collector := [];
                epoch_train_loss_D_collector := [];
                tb_file := [] |} in
  let '((self, loc), c) :=
    epoch_loop training_loader (seq 0 (epochs self)) (self, loc) in
  let '(self, handled) :=
    match c with
    | Raised e =>
        let self := logger Error (MsgException e) self in
        match best_model_dict self with
        | None => (self, Raise RuntimeError)
        | Some _ => (self, Ok ())
        end
    | _ => (self, Ok ())
    end in
  match handled with
  | Raise e => ((self, loc), Raise e)
  | Ok _ =>
      if is_pinf (best_loss self) then ((self, loc), Raise ValueError)
      else ((logger Info MsgFinished self, loc), Ok ())
  end.

End Steps.
End USGANSteps.

(** ** Step 1 of [USGAN.fit]: the datasets and the loaders *)

Module USGANFit.

(** [train_set], [val_set : Union[dict, str]]: a dict of arrays or the
    path of an h5 file. *)
Inductive set_source (array : Type) :=
| DictSet (d : gmap string array)
| PathSet (path : string).
Arguments DictSet {array} d.
Arguments PathSet {array} path.

Section Fit.
Context {state_dict loader dataset array : Type}.
Variable run_epoch : loader → nat → epoch_outcome state_dict.
(** The h5 files, by path. *)
Variable files : gmap string (gmap string array).
(** [DatasetForUSGAN(data, return_labels, file_type)], of
    [pypots/imputation/usgan/data.py], not among the sources: the
    dataset or the exception of its construction. *)
Variable DatasetForUSGAN :
  set_source array → bool → string → result dataset.
(** [DataLoader(dataset, batch_size=..., shuffle=..., num_workers=...)] *)
Variable DataLoader : dataset → bool → loader.

(** [h5py.File(path, "r")] *)
Definition h5py_File (path : string) : result (gmap string array) :=
  match files !! path with
  | Some hf => Ok hf
  | None => Raise (OSError path)
  end.

Definition fit (train_set : set_source array)
    (val_set : option (set_source array)) (file_type : string)
    (self : BaseNNModel state_dict)
  : BaseNNModel state_dict * result unit :=
  (* Step 1: wrap the input data with classes Dataset and DataLoader *)
  match DatasetForUSGAN train_set false file_type with
  | Raise e => (self, Raise e)
  | Ok training_set =>
      let training_loader := DataLoader training_set true in
      let val_loader :=
        match val_set with
        | None => Ok None
        | Some val_set =>
            val_set ←
              match val_set with
              | PathSet path =>
                  (* Here we read the whole validation set from the file
                     to mask a portion for validation. *)
                  hf ← h5py_File path;
                  X ← dict_get hf "X";
                  X_intact ← dict_get hf "X_intact";
                  indicating_mask ← dict_get hf "indicating_mask";
                  Ok (DictSet {[ "X"%string := X;
                                 "X_intact"%string := X_intact;
                                 "indicating_mask"%string :=
                                   indicating_mask ]})
              | DictSet _ => Ok val_set
              end;
            val_set ← DatasetForUSGAN val_set false file_type;
            Ok (Some (DataLoader val_set false))
        end in
      match val_loader with
      | Raise e => (self, Raise e)
      | Ok val_loader =>
          (* Step 2 and step 3 *)
          USGAN.fit run_epoch training_loader val_loader self
      end
  end.

End Fit.
End USGANFit.

(** ** Further notions for the statements of Part III *)

Section MoreSampleNotions.
Import DatasetForBRITS.

(** The same store with every sample reversed in time. *)
Definition time_reversed (d : store) : store :=
  {| store_dtype := store_dtype d; store_X := flip1 (store_X d);
     store_y := store_y d |}.

(** [torch.isinf] *)
Definition isinf (x : fval) : bool :=
  match x with PInf | NInf => true | _ => false end.

(** An entry of an array of type [dt] that is within float32: a value
    float32 holds and, unless the array is float32 itself, not an
    infinity. *)
Definition within_float32 (dt : dtype) (x : fval) : Prop :=
  to_float32 x = x ∧ (dt = float32 ∨ isinf x = false).

(** The two views exchanged. *)
Definition swap_views (pd : processed) : processed :=
  {| forward := backward pd; backward := forward pd |}.

(** A tensor of a sample is a scalar or a [T x F] matrix. *)
Definition tensor_shape (T F : nat) (x : tensor) : Prop :=
  match x with
  | Scalar _ => True
  | Features m => shape T F m
  | Matrix m => shape T F m
  end.

End MoreSampleNotions.

(** The generator losses a trace reports, epoch after epoch. *)
Definition losses_logged {state_dict} (tr : list (event state_dict))
  : list fval :=
  omap (λ ev, match ev with
              | Logged Info (MsgEpoch _ g _) => Some g
              | _ => None
              end) tr.

(** The lines a trace has of the epochs: epoch, generator loss,
    discriminator loss. *)
Definition reports {state_dict} (tr : list (event state_dict))
  : list (nat * fval * fval) :=
  omap (λ ev, match ev with
              | Logged Info (MsgEpoch e g d) => Some (e, g, d)
              | _ => None
              end) tr.

Section SnapshotNotions.
Context {state_dict : Type}.

(** The snapshot exists exactly when the best loss has left its initial
    value, and a best loss is never NaN. *)
Definition snapshot_inv (s : BaseNNModel state_dict) : Prop :=
  match best_model_dict s with
  | None => best_loss s = PInf
  | Some _ => is_pinf (best_loss s) = false ∧ isnan (best_loss s) = false
  end.

End SnapshotNotions.

Section StepNotions.
Import USGANSteps.
Context {state_dict T : Type}.
Variable to_device : T → T.
Variable G_steps D_steps : Z.
Variable summary_writer : bool.
Variable generator_step :
  state_dict → gmap string (input T) → result (fval * state_dict).
Variable discriminator_step :
  state_dict → gmap string (input T) → result (fval * state_dict).
Variable mean_rest : list fval → fval.
Variable str : exn → string.
Variable training_loader : nat → list (list T).
(** The parameters the training starts from. *)
Variable sd0 : state_dict.

(** The locals as [_train_model] initialises them. *)
Definition fresh_locals : locals :=
  {| training_step := 0; epoch_train_loss_G_collector := [];
     epoch_train_loss_D_collector := []; tb_file := [] |}.

(** The parameters and the locals at the start of [epoch], when every
    earlier epoch ran through all its batches. *)
Fixpoint state_before (epoch : nat) : option (state_dict * locals) :=
  match epoch with
  | 0 => Some (sd0, fresh_locals)
  | S e =>
      match state_before e with
      | Some st =>
          match batch_loop to_device G_steps D_steps summary_writer
                  generator_step discriminator_step mean_rest
                  0 (training_loader e) st with
          | (st', Ok _) => Some st'
          | (_, Raise _) => None
          end
      | None => None
      end
  end.

(** What the steps of [epoch] come to, seen from the loop over the
    epochs: the means of the two collectors and the parameters, or the
    message of the exception. *)
Definition epoch_outcome_of (_ : unit) (epoch : nat)
  : epoch_outcome state_dict :=
  match state_before epoch with
  | Some st =>
      match batch_loop to_device G_steps D_steps summary_writer
              generator_step discriminator_step mean_rest
              0 (training_loader epoch) st with
      | ((sd, loc), Ok _) =>
          EpochDone (np_mean mean_rest (epoch_train_loss_G_collector loc))
                    (np_mean mean_rest (epoch_train_loss_D_collector loc))
                    sd
      | (_, Raise e) => EpochRaised (str e)
      end
  | None => EpochRaised ""
  end.

(** The number of batches of the epochs before [epoch]. *)
Definition batches_before (epoch : nat) : nat :=
  sum_list_with (λ e, length (training_loader e)) (seq 0 epoch).

End StepNotions.

(** ** More inputs used in examples *)

Module MoreExamples.

(** A data list of seven elements and one of eight. *)
Definition seven : list nat := [0; 1; 2; 3; 4; 5; 6]%nat.
Definition eight : list nat := [0; 1; 2; 3; 4; 5; 6; 7]%nat.

(** A test loader that yields the batches it is given, and a model that
    adds its parameter to every number of a batch, raises on a batch
    that starts with 0 and returns no output for an empty batch. *)
Definition loader_of (X : list (list nat)) (_ : string)
  : result (list (list nat)) := Ok X.

Definition adding (key : string) (sd : nat) (b : list nat)
  : result (gmap string (list nat)) :=
  match b with
  | [] => Ok ∅
  | 0%nat :: _ => Raise (Exception "bad batch")
  | _ => Ok {[ key := (λ x, x + sd)%nat <$> b ]}
  end.

Definition concat_all (l : list (list nat)) : result (list nat) :=
  Ok (concat l).

(** A generator and a discriminator whose loss is always 1 and whose
    step adds one to the parameters; two batches in every epoch. *)
Definition unit_step (sd : nat) (_ : gmap string (input nat))
  : result (fval * nat) := Ok (Num 1, S sd).

Definition two_batches (_ : nat) : list (list nat) := [seven; seven].

End MoreExamples.

(** * Part II: properties *)

Lemma entry_is_Some {A} (m : matrix A) T F t f :
  shape T F m → (t < T)%nat → (f < F)%nat → is_Some (entry m t f).
Proof.
  intros [Hlen Hrows] Ht Hf. unfold entry.
  destruct (lookup_lt_is_Some_2 m t) as [row Hrow]; [lia|].
  rewrite Hrow. simpl. apply lookup_lt_is_Some_2.
  rewrite Forall_lookup in Hrows. rewrite (Hrows _ _ Hrow). exact Hf.
Qed.

(** ** The recurrence of the delta encoder *)

Section EncoderFacts.
Import DeltaEncoder.
Local Open Scope Z_scope.
Variable step_gap : Z.
Local Abbreviation next_delta := (next_delta step_gap).
Local Abbreviation delta_rows := (delta_rows step_gap).
Local Abbreviation _parse_delta_torch := (_parse_delta_torch step_gap).

Lemma delta_rows_length pm pd rest :
  length (delta_rows pm pd rest) = length rest.
Proof.
  revert pm pd. induction rest as [|m rest IH]; intros; simpl; [done|].
  by rewrite IH.
Qed.

Lemma parse_delta_length mask :
  length (_parse_delta_torch mask) = length mask.
Proof. destruct mask; simpl; [done|]. by rewrite delta_rows_length. Qed.

(** Row [k+1] of the encoding is one step of the recurrence applied to
    rows [k] of the mask and of the encoding. *)
Lemma delta_rows_step rest : ∀ pm pd k m,
  (pm :: rest) !! k = Some m →
  (k < length rest)%nat →
  ∃ d, (pd :: delta_rows pm pd rest) !! k = Some d ∧
       (pd :: delta_rows pm pd rest) !! S k = Some (next_delta m d).
Proof.
  induction rest as [|m' rest IH]; intros pm pd k m Hm Hk; simpl in Hk; [lia|].
  destruct k as [|k].
  - simpl in Hm. injection Hm as <-. exists pd. done.
  - simpl in Hm. destruct (IH m' (next_delta pm pd) k m Hm) as (d & Hd1 & Hd2); [lia|].
    exists d. done.
Qed.

Lemma parse_delta_step mask k m :
  mask !! k = Some m → (S k < length mask)%nat →
  ∃ d, _parse_delta_torch mask !! k = Some d ∧
       _parse_delta_torch mask !! S k = Some (next_delta m d).
Proof.
  destruct mask as [|m0 rest]; [done|]. intros Hm Hk. simpl in Hk.
  apply delta_rows_step; [done|lia].
Qed.

Lemma delta_rows_shape F rest : ∀ pm pd,
  length pm = F → length pd = F →
  Forall (λ row, length row = F) rest →
  Forall (λ row, length row = F) (delta_rows pm pd rest).
Proof.
  induction rest as [|m rest IH]; intros pm pd Hpm Hpd Hrest; simpl; [done|].
  apply Forall_cons in Hrest as [Hm Hrest].
  assert (length (next_delta pm pd) = F) as Hn.
  { unfold next_delta. rewrite length_zip_with. lia. }
  constructor; [done|]. apply IH; done.
Qed.

Lemma parse_delta_shape T F mask :
  shape T F mask → shape T F (_parse_delta_torch mask).
Proof.
  intros [Hlen Hrows]. split; [by rewrite parse_delta_length|].
  destruct mask as [|m0 rest]; [done|]. simpl.
  apply Forall_cons in Hrows as [Hm0 Hrows].
  constructor; [by rewrite length_fmap|].
  apply delta_rows_shape; [done|by rewrite length_fmap|done].
Qed.

Lemma entry_first mask T F f :
  shape T F mask → (0 < T)%nat → (f < F)%nat →
  entry (_parse_delta_torch mask) 0 f = Some 0.
Proof.
  intros [Hlen Hrows] HT Hf. destruct mask as [|m0 rest]; [simpl in Hlen; lia|].
  apply Forall_cons in Hrows as [Hm0 Hrows]. unfold entry. simpl.
  rewrite list_lookup_fmap.
  destruct (lookup_lt_is_Some_2 m0 f) as [x Hx]; [lia|]. by rewrite Hx.
Qed.

Lemma entry_step mask T F t f :
  shape T F mask → (S t < T)%nat → (f < F)%nat →
  ∃ mp dp, entry mask t f = Some mp ∧
           entry (_parse_delta_torch mask) t f = Some dp ∧
           entry (_parse_delta_torch mask) (S t) f =
             Some (if mp =? 1 then step_gap else step_gap + dp).
Proof.
  intros Hsh Ht Hf.
  destruct (entry_is_Some mask T F t f Hsh) as [mp Hmp]; [lia|done|].
  destruct (entry_is_Some _ T F t f (parse_delta_shape _ _ _ Hsh))
    as [dp Hdp]; [lia|done|].
  exists mp, dp. split; [done|]. split; [done|].
  unfold entry in *.
  destruct (mask !! t) as [m|] eqn:Hm; [|done]. simpl in Hmp.
  destruct Hsh as [Hlen _].
  destruct (parse_delta_step mask t m Hm) as (d & Hd1 & Hd2); [lia|].
  rewrite Hd1 in Hdp. simpl in Hdp. rewrite Hd2. simpl.
  unfold next_delta. rewrite lookup_zip_with, Hmp. simpl. by rewrite Hdp.
Qed.

Lemma entry_nonneg mask T F :
  0 ≤ step_gap → shape T F mask →
  ∀ t f d, entry (_parse_delta_torch mask) t f = Some d → 0 ≤ d.
Proof.
  intros Hgap Hsh t. induction t as [|t IH]; intros f d Hd.
  - assert (is_Some (entry (_parse_delta_torch mask) 0 f)) as Hs by eauto.
    unfold entry in Hs. destruct Hs as [x Hx].
    destruct (_parse_delta_torch mask !! 0%nat) as [row|] eqn:Hrow; [|done].
    simpl in Hx. pose proof (parse_delta_shape _ _ _ Hsh) as [Hl Hr].
    rewrite Forall_lookup in Hr. pose proof (Hr _ _ Hrow) as Hlr.
    apply lookup_lt_Some in Hx. apply lookup_lt_Some in Hrow.
    rewrite (entry_first mask T F f Hsh) in Hd; [|lia..].
    injection Hd as <-. done.
  - assert (S t < T)%nat as Ht.
    { unfold entry in Hd. destruct (_ !! S t) eqn:Hrow; [|done].
      apply lookup_lt_Some in Hrow.
      rewrite parse_delta_length in Hrow. destruct Hsh; lia. }
    assert (f < F)%nat as Hf.
    { unfold entry in Hd. destruct (_ !! S t) as [row|] eqn:Hrow; [|done].
      simpl in Hd. apply lookup_lt_Some in Hd.
      pose proof (parse_delta_shape _ _ _ Hsh) as [Hl Hr].
      rewrite Forall_lookup in Hr. by rewrite (Hr _ _ Hrow) in Hd. }
    destruct (entry_step mask T F t f Hsh Ht Hf) as (mp & dp & _ & Hdp & Hnext).
    rewrite Hnext in Hd. injection Hd as <-.
    specialize (IH f dp Hdp). destruct (mp =? 1); lia.
Qed.


(** C2.  For a mask of [T] rows and [F] columns the encoding obeys the
    recurrence: row 0 is zero in every feature; for [t > 0] the entry
    [delta[t,f]] is [step_gap] when [mask[t-1,f]] is 1 and
    [step_gap + delta[t-1,f]] otherwise; hence, the unit of time being
    non-negative, [delta[t,f] >= step_gap] for every [t > 0]. *)
Theorem delta_recurrence (mask : matrix Z) (T F : nat) :
  shape T F mask →
  (∀ f, (0 < T)%nat → (f < F)%nat →
     entry (_parse_delta_torch mask) 0 f = Some 0) ∧
  (∀ t f, (0 < t < T)%nat → (f < F)%nat →
     ∃ m d, entry mask (t - 1) f = Some m ∧
            entry (_parse_delta_torch mask) (t - 1) f = Some d ∧
            entry (_parse_delta_torch mask) t f =
              Some (if m =? 1 then step_gap else step_gap + d)) ∧
  (0 ≤ step_gap →
   ∀ t f, (0 < t < T)%nat → (f < F)%nat →
     ∃ d, entry (_parse_delta_torch mask) t f = Some d ∧ step_gap ≤ d).
Proof.
  intros Hsh. split; [|split].
  - intros f HT Hf. by apply (entry_first mask T F).
  - intros t f Ht Hf. destruct t as [|t]; [lia|].
    replace (S t - 1)%nat with t by lia.
    apply (entry_step mask T F); [done|lia|done].
  - intros Hgap t f Ht Hf. destruct t as [|t]; [lia|].
    destruct (entry_step mask T F t f Hsh) as (m & d & _ & Hd & Hnext);
      [lia|done|].
    eexists. split; [exact Hnext|].
    pose proof (entry_nonneg mask T F Hgap Hsh t f d Hd).
    destruct (m =? 1); lia.
Qed.

End EncoderFacts.

Lemma delta_recurrence_witness :
  shape 5 2 Examples.mask52 ∧ (0 ≤ 1)%Z ∧
  ∃ d, entry (DeltaEncoder._parse_delta_torch 1 Examples.mask52) 2 0 = Some d
       ∧ (1 ≤ d)%Z.
Proof.
  assert (shape 5 2 Examples.mask52) as Hs.
  { split; [reflexivity|]. repeat constructor. }
  split; [exact Hs|]. split; [lia|].
  destruct (delta_recurrence 1 Examples.mask52 5 2 Hs) as (_ & _ & H).
  apply H; lia.
Defined.

(** ** The samples of [DatasetForBRITS] *)

Lemma getitem_Some {A} (l : list A) idx a :
  l !! idx = Some a → getitem l idx = Ok a.
Proof. intros H. unfold getitem. by rewrite H. Qed.

Lemma getitem_fmap {A B} (f : A → B) (l : list A) idx a :
  l !! idx = Some a → getitem (f <$> l) idx = Ok (f a).
Proof. intros H. apply getitem_Some. by rewrite list_lookup_fmap, H. Qed.

(** The cast to float32 keeps what is NaN and what is not. *)
Lemma observed_to_float32 v : observed (to_float32 v) = observed v.
Proof.
  destruct v as [| | |z]; try reflexivity. unfold to_float32.
  destruct (2 ^ 128 <=? round24 (Z.abs z))%Z; [|reflexivity].
  by destruct (z <? 0)%Z.
Qed.

Lemma entry_map2d {A B} (f : A → B) (m : matrix A) t j :
  entry (map2d f m) t j = f <$> entry m t j.
Proof.
  unfold entry, map2d. rewrite list_lookup_fmap.
  destruct (m !! t) as [row|]; simpl; [|done]. by rewrite list_lookup_fmap.
Qed.

(** An entry of the features either fetch leaves. *)
Lemma entry_features how (raw : matrix fval) t j :
  entry (features how raw) t j =
    (match how with
     | Eager dt => λ v, to_float32 (nan_to_num dt v)
     | Lazy => λ v, nan_to_num float32 (to_float32 v)
     end) <$> entry raw t j.
Proof.
  destruct how as [dt|]; unfold features; rewrite !entry_map2d;
    by destruct (entry raw t j).
Qed.

Lemma map2d_reverse {A B} (f : A → B) (m : matrix A) :
  map2d f (reverse m) = reverse (map2d f m).
Proof. unfold map2d. by rewrite fmap_reverse. Qed.

Lemma mask_after_cast (raw : matrix fval) :
  map2d observed (map2d to_float32 raw) = map2d observed raw.
Proof.
  unfold map2d. rewrite <- list_fmap_compose. apply list_fmap_ext.
  intros _ row _. simpl. rewrite <- list_fmap_compose. apply list_fmap_ext.
  intros _ v _. simpl. apply observed_to_float32.
Qed.

Section DatasetFacts.
Import DatasetForBRITS.
Variable step_gap : Z.
Local Abbreviation encode := (DeltaEncoder._parse_delta_torch step_gap).
Local Abbreviation sample7 := (sample7 step_gap).

Lemma fetch_array_eq d rl ft idx raw :
  store_X d !! idx = Some raw →
  _fetch_data_from_array (__init__ step_gap (Dict d) rl ft) idx =
    (lbl ← label_part (store_y d) rl idx;
     Ok (sample7 (Eager (store_dtype d)) idx raw ++ lbl)).
Proof.
  intros Hraw. unfold _fetch_data_from_array, __init__. simpl.
  unfold DeltaEncoder._parse_delta_torch_batch, flip1, map3d.
  rewrite !(getitem_fmap _ _ idx _ Hraw).
  erewrite !getitem_fmap by (rewrite !list_lookup_fmap, Hraw; reflexivity).
  simpl. rewrite map2d_reverse. unfold label_part.
  destruct (store_y d) as [ys|]; [|done].
  destruct rl; [|done].
  destruct (getitem ys idx); done.
Qed.

Lemma fetch_file_eq fs (self : t) d idx raw :
  (file_handle self = Some d ∨
   file_handle self = None ∧ backs fs (data self) d ∧
     ∃ p, data self = Path p) →
  store_X d !! idx = Some raw →
  _fetch_data_from_file step_gap fs self idx =
    (set_file_handle (Some d) self,
     lbl ← label_part (store_y d) (return_labels self) idx;
     Ok (sample7 Lazy idx raw ++ lbl)).
Proof.
  intros Hh Hraw. unfold _fetch_data_from_file.
  assert (set_file_handle (Some d) self = self ∨ file_handle self = None) as Hs.
  { destruct Hh as [Hh|[Hh _]]; [left|by right].
    destruct self; simpl in *. by subst. }
  destruct Hh as [Hh|(Hh & Hb & p & Hp)].
  - rewrite Hh. destruct Hs as [->|Hn]; [|congruence].
    rewrite (getitem_Some _ _ _ Hraw). simpl.
    rewrite !mask_after_cast. unfold label_part.
    destruct (store_y d) as [ys|]; [|done].
    destruct (return_labels self); [|done].
    destruct (getitem ys idx); done.
  - rewrite Hh. unfold _open_file_handle. rewrite Hp in *. simpl in Hb.
    rewrite Hb. simpl.
    rewrite (getitem_Some _ _ _ Hraw). simpl.
    rewrite !mask_after_cast. unfold label_part.
    destruct (store_y d) as [ys|]; [|done].
    destruct (return_labels self); [|done].
    destruct (getitem ys idx); done.
Qed.

Lemma fetch_file_init_eq fs p d rl ft idx raw :
  fs !! p = Some d → store_X d !! idx = Some raw →
  _fetch_data_from_file step_gap fs (__init__ step_gap (Path p) rl ft) idx =
    (set_file_handle (Some d) (__init__ step_gap (Path p) rl ft),
     lbl ← label_part (store_y d) rl idx;
     Ok (sample7 Lazy idx raw ++ lbl)).
Proof.
  intros Hp Hraw.
  rewrite (fetch_file_eq fs _ d idx raw); [done| |done].
  right. split; [done|]. split; [done|]. by exists p.
Qed.

Lemma label_part_valid d rl idx :
  (∀ ys, store_y d = Some ys → (idx < length ys)%nat) →
  ∃ lbl, label_part (store_y d) rl idx = Ok lbl.
Proof.
  intros Hy. unfold label_part. destruct (store_y d) as [ys|]; [|by eexists].
  destruct rl; [|by eexists].
  destruct (lookup_lt_is_Some_2 ys idx) as [l Hl]; [by apply Hy|].
  rewrite (getitem_Some _ _ _ Hl). by eexists.
Qed.

(** C1.  The sample built for any input has, as its backward features
    and mask, the forward ones reversed in time, and as its backward
    delta the encoder applied afresh to the reversed mask, both in the
    tensors computed at construction and in a sample read from a file;
    and for the mask with the gap pattern [1,0,0,1,0] the backward
    delta differs from the forward delta reversed in time. *)
Theorem backward_view_recomputed :
  (∀ d rl ft, ∃ pd,
     processed_data (__init__ step_gap (Dict d) rl ft) = Some pd ∧
     view_X (backward pd) = flip1 (view_X (forward pd)) ∧
     view_missing_mask (backward pd) =
       flip1 (view_missing_mask (forward pd)) ∧
     view_delta (backward pd) =
       DeltaEncoder._parse_delta_torch_batch step_gap
         (flip1 (view_missing_mask (forward pd)))) ∧
  (∀ fs p d rl ft idx raw,
     fs !! p = Some d → store_X d !! idx = Some raw →
     (∀ ys, store_y d = Some ys → (idx < length ys)%nat) →
     ∃ fX fM fD lbl,
       (_fetch_data_from_file step_gap fs
          (__init__ step_gap (Path p) rl ft) idx).2 =
         Ok ([ Scalar (Z.of_nat idx); Features fX; Matrix fM; Matrix fD;
               Features (flip0 fX); Matrix (flip0 fM);
               Matrix (encode (flip0 fM)) ] ++ lbl)) ∧
  (step_gap ≠ 0%Z →
   ∃ pd,
     processed_data
       (__init__ step_gap (Dict Examples.gap_store) true "h5py") = Some pd ∧
     view_missing_mask (forward pd) = [[[1]; [0]; [0]; [1]; [0]]]%Z ∧
     view_delta (backward pd) ≠ flip1 (view_delta (forward pd))).
Proof.
  split; [|split].
  - intros d rl ft. eexists. split; [reflexivity|]. simpl.
    split; [|done]. unfold map3d, flip1, map2d.
    rewrite <- !list_fmap_compose. apply list_fmap_ext.
    intros _ m _. simpl. by rewrite fmap_reverse.
  - intros fs p d rl ft idx raw Hp Hraw Hy.
    rewrite (fetch_file_init_eq fs p d rl ft idx raw Hp Hraw). simpl.
    destruct (label_part_valid d rl idx Hy) as [lbl ->]. simpl.
    by eexists _, _, _, lbl.
  - intros Hgap. eexists. split; [reflexivity|]. split; [reflexivity|].
    vm_compute. intros Heq. injection Heq as Heq _. congruence.
Qed.

(** C6.  The eager fetch and the lazy fetch do not return the same
    sample for every dataset.  From a float64 array the eager fetch
    runs [nan_to_num] at float64 and casts to float32 afterwards, the
    lazy fetch casts first: for the sample [wide_sample], whose entries
    are an infinity, [2^200], 5 and NaN, the eager features are
    [inf, inf, 5, 0] and the lazy ones [FLT_MAX, FLT_MAX, 5, 0]; and
    wherever a float64 array holds an infinity, the eager feature is
    that infinity and the lazy one the greatest or the least finite
    float32. *)
Theorem eager_lazy_differ_beyond_float32 :
  (∃ eager lazy,
     _fetch_data_from_array
       (__init__ step_gap (Dict Examples.wide_store) true "h5py") 0 =
       Ok eager ∧
     (_fetch_data_from_file step_gap Examples.wide_files
        (__init__ step_gap (Path "wide.h5") true "h5py") 0).2 = Ok lazy ∧
     eager !! 1%nat = Some (Features [[PInf]; [PInf]; [Num 5]; [Num 0]]) ∧
     lazy !! 1%nat =
       Some (Features [[Num FLT_MAX]; [Num FLT_MAX]; [Num 5]; [Num 0]]) ∧
     eager ≠ lazy) ∧
  (∀ fs p d rl ft idx raw t j v,
     fs !! p = Some d → store_dtype d = float64 →
     store_X d !! idx = Some raw →
     (∀ ys, store_y d = Some ys → (idx < length ys)%nat) →
     entry raw t j = Some v → isinf v = true →
     ∃ eX lX lbl,
       _fetch_data_from_array (__init__ step_gap (Dict d) rl ft) idx =
         Ok ([ Scalar (Z.of_nat idx); Features eX;
               Matrix (map2d observed raw);
               Matrix (encode (map2d observed raw));
               Features (flip0 eX);
               Matrix (flip0 (map2d observed raw));
               Matrix (encode (flip0 (map2d observed raw))) ] ++ lbl) ∧
       (_fetch_data_from_file step_gap fs
          (__init__ step_gap (Path p) rl ft) idx).2 =
         Ok ([ Scalar (Z.of_nat idx); Features lX;
               Matrix (map2d observed raw);
               Matrix (encode (map2d observed raw));
               Features (flip0 lX);
               Matrix (flip0 (map2d observed raw));
               Matrix (encode (flip0 (map2d observed raw))) ] ++ lbl) ∧
       entry eX t j = Some v ∧
       entry lX t j =
         Some (Num (if is_pinf v then FLT_MAX else - FLT_MAX)%Z)).
Proof.
  split.
  - eexists _, _. split; [reflexivity|]. split; [reflexivity|].
    split; [vm_compute; reflexivity|]. split; [vm_compute; reflexivity|].
    intros Heq. apply (f_equal (λ l, l !! 1%nat)) in Heq.
    vm_compute in Heq. discriminate Heq.
  - intros fs p d rl ft idx raw t j v Hp Hdt Hraw Hy Hv Hinf.
    destruct (label_part_valid d rl idx Hy) as [lbl Hlbl].
    exists (features (Eager float64) raw), (features Lazy raw), lbl.
    rewrite (fetch_array_eq d rl ft idx raw Hraw), Hdt.
    rewrite (fetch_file_init_eq fs p d rl ft idx raw Hp Hraw). cbn [fst snd].
    rewrite Hlbl. split; [reflexivity|]. split; [reflexivity|].
    rewrite !entry_features, Hv.
    destruct v; try discriminate Hinf; split; vm_compute; reflexivity.
Qed.

(** C9.  With [return_labels] false the sample [__getitem__] returns is
    exactly the seven tensors (index, forward and backward features,
    mask, delta) even when the backing data holds labels; with
    [return_labels] true and labels present it is the same seven
    followed by the label as an integer. *)
Theorem labels_only_on_request fs data_ d ft idx raw :
  backs fs data_ d → store_X d !! idx = Some raw →
  length (sample7 (fetch_of data_ d) idx raw) = 7%nat ∧
  (__getitem__ step_gap fs (__init__ step_gap data_ false ft) idx).2 =
    Ok (sample7 (fetch_of data_ d) idx raw) ∧
  (∀ ys label, store_y d = Some ys → ys !! idx = Some label →
     (__getitem__ step_gap fs (__init__ step_gap data_ true ft) idx).2 =
       Ok (sample7 (fetch_of data_ d) idx raw ++ [Scalar label])) ∧
  (store_y d = None →
     (__getitem__ step_gap fs (__init__ step_gap data_ true ft) idx).2 =
       Ok (sample7 (fetch_of data_ d) idx raw)).
Proof.
  intros Hb Hraw. split; [reflexivity|].
  assert (∀ rl,
    (__getitem__ step_gap fs (__init__ step_gap data_ rl ft) idx).2 =
      (lbl ← label_part (store_y d) rl idx;
       Ok (sample7 (fetch_of data_ d) idx raw ++ lbl)))
    as Hget.
  { intros rl. destruct data_ as [d'|p]; simpl in Hb.
    - subst d'. unfold __getitem__. simpl.
      apply (fetch_array_eq d rl ft idx raw Hraw).
    - unfold __getitem__. simpl.
      change (BaseDataset__init__ (Path p) rl ft)
        with (__init__ step_gap (Path p) rl ft).
      by rewrite (fetch_file_init_eq fs p d rl ft idx raw Hb Hraw). }
  split; [|split].
  - rewrite Hget. unfold label_part. destruct (store_y d); reflexivity.
  - intros ys label Hys Hl. rewrite Hget, Hys. simpl.
    by rewrite (getitem_Some _ _ _ Hl).
  - intros Hn. rewrite Hget, Hn. reflexivity.
Qed.

End DatasetFacts.

Lemma backward_view_recomputed_witness :
  Examples.gap_files !! "gap.h5"%string = Some Examples.gap_store ∧
  (1 ≠ 0)%Z ∧
  (∃ fX fM fD lbl,
     (DatasetForBRITS._fetch_data_from_file 1 Examples.gap_files
        (DatasetForBRITS.__init__ 1 (DatasetForBRITS.Path "gap.h5") true "h5py")
        0).2 =
       Ok ([ DatasetForBRITS.Scalar 0; DatasetForBRITS.Features fX;
             DatasetForBRITS.Matrix fM; DatasetForBRITS.Matrix fD;
             DatasetForBRITS.Features (flip0 fX);
             DatasetForBRITS.Matrix (flip0 fM);
             DatasetForBRITS.Matrix
               (DeltaEncoder._parse_delta_torch 1 (flip0 fM)) ] ++ lbl)) ∧
  (∃ pd,
     DatasetForBRITS.processed_data
       (DatasetForBRITS.__init__ 1 (DatasetForBRITS.Dict Examples.gap_store)
          true "h5py") = Some pd ∧
     DatasetForBRITS.view_missing_mask (DatasetForBRITS.forward pd) =
       [[[1]; [0]; [0]; [1]; [0]]]%Z ∧
     DatasetForBRITS.view_delta (DatasetForBRITS.backward pd) ≠
       flip1 (DatasetForBRITS.view_delta (DatasetForBRITS.forward pd))).
Proof.
  assert (Examples.gap_files !! "gap.h5"%string = Some Examples.gap_store)
    as Hfile by reflexivity.
  assert (1 ≠ 0)%Z as Hgap by lia.
  destruct (backward_view_recomputed 1) as (_ & Hlazy & Hgapped).
  split; [exact Hfile|]. split; [exact Hgap|]. split.
  - apply (Hlazy Examples.gap_files "gap.h5"%string Examples.gap_store true
             "h5py"%string 0%nat Examples.gap_sample Hfile); [reflexivity|].
    intros ys Hys. injection Hys as <-. simpl. lia.
  - exact (Hgapped Hgap).
Defined.

Lemma eager_lazy_differ_beyond_float32_witness :
  ∃ eager lazy eX lX,
    entry Examples.wide_sample 0 0 = Some PInf ∧
    DatasetForBRITS._fetch_data_from_array
      (DatasetForBRITS.__init__ 1 (DatasetForBRITS.Dict Examples.wide_store)
         false "h5py") 0 = Ok eager ∧
    (DatasetForBRITS._fetch_data_from_file 1 Examples.wide_files
       (DatasetForBRITS.__init__ 1 (DatasetForBRITS.Path "wide.h5") false
          "h5py") 0).2 = Ok lazy ∧
    eager !! 1%nat = Some (DatasetForBRITS.Features eX) ∧
    lazy !! 1%nat = Some (DatasetForBRITS.Features lX) ∧
    entry eX 0 0 = Some PInf ∧ entry lX 0 0 = Some (Num FLT_MAX).
Proof.
  destruct (eager_lazy_differ_beyond_float32 1) as [_ Hinf].
  destruct (Hinf Examples.wide_files "wide.h5"%string Examples.wide_store
              false "h5py"%string 0%nat Examples.wide_sample 0%nat 0%nat PInf
              eq_refl eq_refl eq_refl)
    as (eX & lX & lbl & He & Hl & HeX & HlX);
    [intros ys Hys; discriminate Hys|reflexivity|reflexivity|].
  eexists _, _, eX, lX. split; [reflexivity|].
  split; [exact He|]. split; [exact Hl|]. repeat split; assumption.
Defined.

Lemma labels_only_on_request_witness :
  length (sample7 1 Lazy 0 Examples.gap_sample) = 7%nat ∧
  (DatasetForBRITS.__getitem__ 1 Examples.gap_files
     (DatasetForBRITS.__init__ 1 (DatasetForBRITS.Path "gap.h5") false "h5py")
     0).2 = Ok (sample7 1 Lazy 0 Examples.gap_sample) ∧
  (DatasetForBRITS.__getitem__ 1 Examples.gap_files
     (DatasetForBRITS.__init__ 1 (DatasetForBRITS.Path "gap.h5") true "h5py")
     0).2 =
    Ok (sample7 1 Lazy 0 Examples.gap_sample ++ [DatasetForBRITS.Scalar 1]).
Proof.
  destruct (labels_only_on_request 1 Examples.gap_files
              (DatasetForBRITS.Path "gap.h5") Examples.gap_store
              "h5py"%string 0%nat Examples.gap_sample)
    as (Hlen & Hoff & Hon & _); [reflexivity|reflexivity|].
  split; [exact Hlen|]. split; [exact Hoff|].
  apply (Hon [1%Z] 1%Z); reflexivity.
Defined.

(** ** The training loop of [USGAN] *)


Lemma flt_not_pinf x y : flt x y = true → is_pinf x = false.
Proof. by destruct x, y. Qed.

Section TrainingFacts.
Import BaseNN USGAN.
Context {state_dict loader : Type}.
Variable run_epoch : loader → nat → epoch_outcome state_dict.
Local Abbreviation self_t := (BaseNNModel state_dict).
Local Abbreviation epoch_body := (epoch_body run_epoch).
Local Abbreviation epoch_loop := (epoch_loop run_epoch).
Local Abbreviation _train_model := (_train_model run_epoch).
Local Abbreviation fit := (fit run_epoch).

Lemma same_config_refl (s : self_t) : same_config s s.
Proof. by repeat split. Qed.

Lemma same_config_trans (s1 s2 s3 : self_t) :
  same_config s1 s2 → same_config s2 s3 → same_config s1 s3.
Proof.
  intros (?&?&?&?) (?&?&?&?). repeat split; congruence.
Qed.

(** The checkpoint call changes the trace only. *)
Lemma auto_save_fields cls fin name (s : self_t) :
  let s' := _auto_save_model_if_necessary cls fin name s in
  same_config s s' ∧ patience s' = patience s ∧ model s' = model s ∧
  training s' = training s ∧ best_loss s' = best_loss s ∧
  best_model_dict s' = best_model_dict s ∧
  epochs_logged (trace s') = epochs_logged (trace s) ∧
  warnings (trace s') = warnings (trace s).
Proof.
  unfold _auto_save_model_if_necessary, same_config.
  destruct (saving_path s) as [path|] eqn:Hp;
    destruct (model_saving_strategy s) as [[]|] eqn:Hs;
    destruct fin; simpl; rewrite ?Hp, ?Hs;
    unfold epochs_logged, warnings; rewrite ?omap_app; simpl;
    rewrite ?app_nil_r; done.
Qed.

Lemma auto_save_saves cls fin name (s : self_t) :
  saves (trace (_auto_save_model_if_necessary cls fin name s)) =
  saves (trace s) ++
    match saving_path s, model_saving_strategy s with
    | Some path, Some best =>
        if fin then [(path, default (ClassName cls) name, model s)] else []
    | Some path, Some better =>
        if fin then [] else [(path, default (ClassName cls) name, model s)]
    | _, _ => []
    end.
Proof.
  unfold _auto_save_model_if_necessary.
  destruct (saving_path s) as [path|];
    destruct (model_saving_strategy s) as [[]|];
    destruct fin; simpl; unfold saves; rewrite ?omap_app; simpl;
    rewrite ?app_nil_r; done.
Qed.

(** An improving epoch. *)
Lemma epoch_body_improve tl e (s : self_t) g dl sd :
  run_epoch tl e = EpochDone g dl sd → flt g (best_loss s) = true →
  let s' := (epoch_body tl e s).1 in
  (epoch_body tl e s).2 = Next ∧ same_config s s' ∧
  patience s' = original_patience s ∧ best_loss s' = g ∧
  best_model_dict s' = Some sd ∧ model s' = sd ∧
  epochs_logged (trace s') = epochs_logged (trace s) ++ [e] ∧
  warnings (trace s') = warnings (trace s) ∧
  saves (trace s') = saves (trace s) ++
    match saving_path s, model_saving_strategy s with
    | Some path, Some better => [(path, EpochLossName "USGAN" e g, sd)]
    | _, _ => []
    end.
Proof.
  intros Hrun Hflt. unfold USGAN.epoch_body. rewrite Hrun. simpl.
  rewrite Hflt. cbn [fst snd].
  match goal with
  | |- context [_auto_save_model_if_necessary ?c ?f ?n ?s0] =>
      pose proof (auto_save_fields c f n s0) as Hf;
      pose proof (auto_save_saves c f n s0) as Hsv
  end.
  simpl in Hf, Hsv.
  destruct Hf as ((?&?&?&?)&?&?&?&?&?&Hel&Hw).
  split; [done|]. split; [by repeat split|].
  repeat (split; [done|]).
  split; [|split].
  - rewrite Hel. unfold epochs_logged. by rewrite omap_app.
  - rewrite Hw. unfold warnings. rewrite omap_app. simpl.
    by rewrite app_nil_r.
  - rewrite Hsv. unfold saves at 1. rewrite omap_app. simpl.
    rewrite app_nil_r. unfold __class____name__.
    destruct (saving_path s), (model_saving_strategy s) as [[]|]; done.
Qed.

(** An epoch that does not improve. *)
Lemma epoch_body_flat tl e (s : self_t) g dl sd :
  run_epoch tl e = EpochDone g dl sd → flt g (best_loss s) = false →
  let s' := (epoch_body tl e s).1 in
  (epoch_body tl e s).2 =
    (if (patience s - 1 =? 0)%Z then Break else Next) ∧
  same_config s s' ∧
  patience s' = (patience s - 1)%Z ∧ best_loss s' = best_loss s ∧
  best_model_dict s' = best_model_dict s ∧
  epochs_logged (trace s') = epochs_logged (trace s) ++ [e] ∧
  warnings (trace s') = warnings (trace s) ∧
  saves (trace s') = saves (trace s).
Proof.
  intros Hrun Hflt. unfold USGAN.epoch_body. rewrite Hrun. simpl.
  rewrite Hflt.
  destruct (patience s - 1 =? 0)%Z; cbn [fst snd]; simpl;
    unfold same_config, epochs_logged, warnings, saves;
    rewrite ?omap_app; simpl; rewrite ?app_nil_r; done.
Qed.

(** An epoch in which an exception is raised. *)
Lemma epoch_body_raised tl e (s : self_t) msg :
  run_epoch tl e = EpochRaised msg →
  epoch_body tl e s = (set_training true s, Raised msg).
Proof. intros Hrun. unfold USGAN.epoch_body. by rewrite Hrun. Qed.

Lemma epoch_loop_cons tl e rest (s : self_t) :
  epoch_loop tl (e :: rest) s =
    match (epoch_body tl e s).2 with
    | Next => epoch_loop tl rest (epoch_body tl e s).1
    | _ => epoch_body tl e s
    end.
Proof. simpl. by destruct (USGAN.epoch_body run_epoch tl e s) as [s' []]. Qed.

(** What every pass through the body preserves. *)
Lemma epoch_body_inv tl e (s : self_t) :
  let s' := (epoch_body tl e s).1 in
  same_config s s' ∧ warnings (trace s') = warnings (trace s) ∧
  (model_saving_strategy s ≠ Some better →
   saves (trace s') = saves (trace s)).
Proof.
  destruct (run_epoch tl e) as [g dl sd|msg] eqn:Hrun.
  - destruct (flt g (best_loss s)) eqn:Hflt.
    + destruct (epoch_body_improve tl e s g dl sd Hrun Hflt)
        as (_&Hc&_&_&_&_&_&Hw&Hs).
      split; [done|]. split; [done|]. intros Hnb. simpl. rewrite Hs.
      destruct (saving_path s), (model_saving_strategy s) as [[]|];
        rewrite ?app_nil_r; done.
    + destruct (epoch_body_flat tl e s g dl sd Hrun Hflt)
        as (_&Hc&_&_&_&_&Hw&Hs). done.
  - rewrite (epoch_body_raised tl e s msg Hrun). simpl.
    split; [by repeat split|done].
Qed.

Lemma epoch_loop_inv tl range : ∀ s : self_t,
  let s' := (epoch_loop tl range s).1 in
  same_config s s' ∧ warnings (trace s') = warnings (trace s) ∧
  (model_saving_strategy s ≠ Some better →
   saves (trace s') = saves (trace s)).
Proof.
  induction range as [|e rest IH]; intros s.
  - simpl. split; [apply same_config_refl|done].
  - rewrite epoch_loop_cons.
    destruct (epoch_body_inv tl e s) as (Hc&Hw&Hs).
    destruct (epoch_body tl e s).2; [|done..].
    destruct (IH (epoch_body tl e s).1) as (Hc'&Hw'&Hs').
    split; [by eapply same_config_trans|]. split; [congruence|].
    intros Hnb. simpl. rewrite Hs', Hs; [done..|].
    destruct Hc as (_&_&_&->). done.
Qed.


(** [_train_model], with the loop named. *)
Lemma train_model_unfold tl vl (s : self_t) :
  _train_model tl vl s =
    let r := epoch_loop tl (seq 0 (epochs s))
               (set_best_model_dict None (set_best_loss PInf s)) in
    match r.2 with
    | Raised e =>
        let s1 := logger Error (MsgException e) r.1 in
        match best_model_dict r.1 with
        | None => (s1, Raise RuntimeError)
        | Some _ =>
            if is_pinf (best_loss r.1) then (s1, Raise ValueError)
            else (logger Info MsgFinished s1, Ok ())
        end
    | _ =>
        if is_pinf (best_loss r.1) then (r.1, Raise ValueError)
        else (logger Info MsgFinished r.1, Ok ())
    end.
Proof.
  unfold USGAN._train_model. simpl.
  destruct (USGAN.epoch_loop _ _ _ _) as [s1 [| |e]]; simpl; try done.
  destruct (best_model_dict s1); done.
Qed.

Lemma fit_unfold tl vl (s : self_t) :
  fit tl vl s =
    let r := _train_model tl vl s in
    match r.2 with
    | Raise e => (r.1, Raise e)
    | Ok _ =>
        match best_model_dict r.1 with
        | None => (r.1, Raise TypeError)
        | Some sd =>
            (_auto_save_model_if_necessary "USGAN" true None
               (set_training false (set_model sd r.1)), Ok ())
        end
    end.
Proof.
  unfold USGAN.fit. destruct (USGAN._train_model _ _ _ _) as [s1 [[]|e]]; done.
Qed.

Lemma train_model_inv tl vl (s : self_t) :
  let s' := (_train_model tl vl s).1 in
  same_config s s' ∧ warnings (trace s') = warnings (trace s) ∧
  (model_saving_strategy s ≠ Some better →
   saves (trace s') = saves (trace s)).
Proof.
  rewrite train_model_unfold.
  destruct (epoch_loop_inv tl (seq 0 (epochs s))
              (set_best_model_dict None (set_best_loss PInf s)))
    as (Hc&Hw&Hs).
  simpl in Hc, Hw, Hs. unfold same_config in *. simpl in Hc.
  assert (∀ (lvl : level) msg (x : self_t), lvl ≠ Warning →
            warnings (trace (logger lvl msg x)) = warnings (trace x)
            ∧ saves (trace (logger lvl msg x)) = saves (trace x)) as Hlog.
  { intros lvl msg x Hl. simpl. unfold warnings, saves.
    rewrite !omap_app. simpl. destruct lvl; rewrite ?app_nil_r; done. }
  cbv zeta.
  destruct (epoch_loop tl _ _).2;
    [destruct (is_pinf _)|destruct (is_pinf _)|
     destruct (best_model_dict _); [destruct (is_pinf _)|]];
    cbn [fst snd];
    rewrite ?(proj1 (Hlog Info MsgFinished _ ltac:(done))),
            ?(proj2 (Hlog Info MsgFinished _ ltac:(done))),
            ?(proj1 (Hlog Error _ _ ltac:(done))),
            ?(proj2 (Hlog Error _ _ ltac:(done)));
    done.
Qed.


(** C8.  However the loop is left (all epochs run, patience used up,
    or an exception caught), if the best loss is still the initial
    infinity then [_train_model] raises, and [fit] returns no trained
    model. *)
Theorem never_improved_is_fatal tl vl (s : self_t) :
  best_loss (_train_model tl vl s).1 = PInf →
  ((_train_model tl vl s).2 = Raise RuntimeError ∨
   (_train_model tl vl s).2 = Raise ValueError) ∧
  (∃ e, (fit tl vl s).2 = Raise e).
Proof.
  intros Hinf.
  assert ((_train_model tl vl s).2 = Raise RuntimeError ∨
          (_train_model tl vl s).2 = Raise ValueError) as Hraise.
  { revert Hinf. rewrite train_model_unfold. cbv zeta.
    destruct (epoch_loop tl _ _).2;
      [| |destruct (best_model_dict _); [|by left]];
      destruct (is_pinf _) eqn:Hp; cbn [fst snd]; try (by right);
      simpl; intros Hinf; rewrite Hinf in Hp; done. }
  split; [done|].
  rewrite fit_unfold. cbv zeta.
  destruct Hraise as [-> | ->]; by eexists.
Qed.

(** C5.  The validation loader does not enter the training loop: with
    or without it the loss compared with the best loss is the mean
    training loss of the generator. *)
Theorem validation_loader_is_ignored :
  (∀ tl vl (s : self_t),
     _train_model tl (Some vl) s = _train_model tl None s ∧
     fit tl (Some vl) s = fit tl None s) ∧
  (∀ tl (s : self_t) e,
     match run_epoch tl e with
     | EpochDone mean_epoch_train_G_loss _ _ =>
         best_loss (epoch_body tl e s).1 =
           (if flt mean_epoch_train_G_loss (best_loss s)
            then mean_epoch_train_G_loss else best_loss s)
     | EpochRaised _ => best_loss (epoch_body tl e s).1 = best_loss s
     end) ∧
  (let r := USGAN._train_model Examples.improving_then_flat () (Some ())
              (Examples.fresh 10 2 None None) in
   r.2 = Ok () ∧ best_loss r.1 = Num 1 ∧
   epochs_logged (trace r.1) = [0; 1; 2; 3; 4]%nat).
Proof.
  split; [|split].
  - intros tl vl s. split; reflexivity.
  - intros tl s e. destruct (run_epoch tl e) as [g dl sd|msg] eqn:Hrun.
    + destruct (flt g (best_loss s)) eqn:Hflt.
      * by destruct (epoch_body_improve tl e s g dl sd Hrun Hflt)
          as (_&_&_&?&_).
      * by destruct (epoch_body_flat tl e s g dl sd Hrun Hflt)
          as (_&_&_&?&_).
    + by rewrite (epoch_body_raised tl e s msg Hrun).
  - vm_compute. done.
Qed.


(** C4, as the code has it.  [fit] never logs a warning.  A fault in
    epoch 3, after improving epochs, is caught: [fit] returns with the
    parameters of the last improving epoch, and the only line added is
    the error line of the exception, the [RuntimeWarning] being built
    and dropped.  A fault in epoch 0 ends [fit] in a [RuntimeError]. *)
Theorem interruption_leaves_no_warning :
  (∀ tl vl (s : self_t),
     warnings (trace (fit tl vl s).1) = warnings (trace s)) ∧
  (let r := USGAN.fit (Examples.faulty_at 3) () None
              (Examples.fresh 5 5 None None) in
   r.2 = Ok () ∧ model r.1 = 102%nat ∧
   trace r.1 =
     [ Logged Info (MsgEpoch 0 (Num 3) (Num 0));
       Logged Info (MsgEpoch 1 (Num 2) (Num 0));
       Logged Info (MsgEpoch 2 (Num 1) (Num 0));
       Logged Error (MsgException "fault");
       Logged Info MsgFinished ]) ∧
  (USGAN.fit (Examples.faulty_at 0) () None
     (Examples.fresh 5 5 None None)).2 = Raise RuntimeError.
Proof.
  split; [|split].
  - intros tl vl s.
    destruct (train_model_inv tl vl s) as (_&Hw&_).
    rewrite fit_unfold. cbv zeta.
    destruct (_train_model tl vl s).2 as [[]|e]; cbn [fst]; [|done].
    destruct (best_model_dict _); cbn [fst]; [|done].
    match goal with
    | |- context [_auto_save_model_if_necessary ?c ?f ?n ?s0] =>
        destruct (auto_save_fields c f n s0) as (_&_&_&_&_&_&_&Hw')
    end.
    rewrite Hw'. done.
  - vm_compute. done.
  - vm_compute. done.
Qed.

End TrainingFacts.


Lemma never_improved_is_fatal_witness :
  (USGAN._train_model Examples.never_improving () None
     (Examples.fresh 3 2 None None)).2 = Raise ValueError ∧
  ∃ e, (USGAN.fit Examples.never_improving () None
          (Examples.fresh 3 2 None None)).2 = Raise e.
Proof.
  destruct (never_improved_is_fatal Examples.never_improving () None
              (Examples.fresh 3 2 None None)) as [_ Hfit]; [reflexivity|].
  split; [reflexivity|exact Hfit].
Defined.


(** ** The deprecated wrappers *)

Lemma dict_get_singleton {A} (key : string) (v : A) :
  dict_get {[ key := v ]} key = Ok v.
Proof. unfold dict_get. by rewrite lookup_singleton_eq. Qed.

(** C10.  [impute] of [USGAN] and of [CSDI] and [classify] of [BRITS]
    return the entry ["imputation"], respectively ["classification"], of
    what [predict] returns for the same data and file type, raise what
    [predict] raises, and leave the model as [predict] does but for the
    deprecation warning in the log. *)
Theorem deprecated_wrappers :
  (∀ (state_dict dataset batch array : Type)
     (test_loader : dataset → string → result (list batch))
     (forward : state_dict → batch → result (gmap string array))
     (cat : list array → result array)
     X file_type (s : BaseNNModel state_dict),
     let p := USGAN.predict test_loader forward cat X file_type s in
     let i := USGAN.impute test_loader forward cat X file_type s in
     i = (BaseNN.logger Warning (MsgDeprecated "impute") p.1,
          p.2 ≫= λ d, dict_get d "imputation") ∧
     match p.2 with
     | Ok d => ∃ v, d = {[ "imputation"%string := v ]} ∧ i.2 = Ok v
     | Raise e => i.2 = Raise e
     end) ∧
  (∀ (state_dict dataset batch array : Type)
     (test_loader : dataset → string → result (list batch))
     (forward : state_dict → batch → nat → result (gmap string array))
     (cat : list array → result array)
     X file_type (s : BaseNNModel state_dict),
     let p := CSDI.predict test_loader forward cat X file_type 1 s in
     let i := CSDI.impute test_loader forward cat X file_type s in
     i = (BaseNN.logger Warning (MsgDeprecated "impute") p.1,
          p.2 ≫= λ d, dict_get d "imputation") ∧
     match p.2 with
     | Ok d => ∃ v, d = {[ "imputation"%string := v ]} ∧ i.2 = Ok v
     | Raise e => i.2 = Raise e
     end) ∧
  (∀ (state_dict dataset batch array : Type)
     (test_loader : dataset → string → result (list batch))
     (forward : state_dict → batch → result (gmap string array))
     (cat : list array → result array)
     X file_type (s : BaseNNModel state_dict),
     let p := BRITS.predict test_loader forward cat X file_type s in
     let i := BRITS.classify test_loader forward cat X file_type s in
     i = (BaseNN.logger Warning (MsgDeprecated "classify") p.1,
          p.2 ≫= λ d, dict_get d "classification") ∧
     match p.2 with
     | Ok d => ∃ v, d = {[ "classification"%string := v ]} ∧ i.2 = Ok v
     | Raise e => i.2 = Raise e
     end).
Proof.
  split; [|split]; intros state_dict dataset batch array test_loader forward
    cat X file_type s; (split; [reflexivity|]).
  - unfold USGAN.impute, USGAN.predict. cbn [fst snd BaseNN.logger].
    simpl model.
    destruct (test_loader X file_type) as [batches|e]; [|done]. simpl.
    destruct (mapM _ batches) as [coll|e]; [|done]. simpl.
    destruct (cat coll) as [v|e]; [|done]. simpl.
    exists v. split; [done|]. apply dict_get_singleton.
  - unfold CSDI.impute, CSDI.predict. cbn [fst snd BaseNN.logger].
    simpl model.
    destruct (test_loader X file_type) as [batches|e]; [|done]. simpl.
    destruct (mapM _ batches) as [coll|e]; [|done]. simpl.
    destruct (cat coll) as [v|e]; [|done]. simpl.
    exists v. split; [done|]. apply dict_get_singleton.
  - unfold BRITS.classify, BRITS.predict. cbn [fst snd BaseNN.logger].
    simpl model.
    destruct (test_loader X file_type) as [batches|e]; [|done]. simpl.
    destruct (mapM _ batches) as [coll|e]; [|done]. simpl.
    destruct (cat coll) as [v|e]; [|done]. simpl.
    exists v. split; [done|]. apply dict_get_singleton.
Qed.

(** * Part III: further properties of the code *)

(** ** More on the samples of [DatasetForBRITS] *)

Lemma entry_flip0 {A} (m : matrix A) t j :
  (t < length m)%nat →
  entry (flip0 m) t j = entry m (length m - S t) j.
Proof. intros Ht. unfold entry, flip0. by rewrite reverse_lookup. Qed.

Lemma shape_map2d {A B} (f : A → B) T F (m : matrix A) :
  shape T F m → shape T F (map2d f m).
Proof.
  intros [Hl Hr]. split; [unfold map2d; by rewrite length_fmap|].
  unfold map2d. rewrite Forall_fmap. eapply Forall_impl; [exact Hr|].
  intros row Hrow. simpl. by rewrite length_fmap.
Qed.

Lemma shape_flip0 {A} T F (m : matrix A) : shape T F m → shape T F (flip0 m).
Proof.
  intros [Hl Hr]. unfold flip0. split; [by rewrite length_reverse|].
  by apply Forall_reverse.
Qed.

Section MoreDatasetFacts.
Import DatasetForBRITS.
Variable step_gap : Z.
Local Abbreviation encode := (DeltaEncoder._parse_delta_torch step_gap).
Local Abbreviation __init__ := (DatasetForBRITS.__init__ step_gap).
Local Abbreviation _fetch_data_from_file :=
  (DatasetForBRITS._fetch_data_from_file step_gap).

Lemma label_part_cases labels rl idx lbl :
  label_part labels rl idx = Ok lbl → lbl = [] ∨ ∃ l, lbl = [Scalar l].
Proof.
  unfold label_part. destruct labels as [ys|]; [|intros [= <-]; by left].
  destruct rl; [|intros [= <-]; by left].
  destruct (getitem ys idx) as [l|e]; simpl; [|done].
  intros [= <-]. right. by exists l.
Qed.

(** A sample either fetch returns is the seven tensors of [sample7],
    followed by at most a label. *)
Lemma fetched_sample fs p d rl ft idx raw sample :
  fs !! p = Some d → store_X d !! idx = Some raw →
  (_fetch_data_from_array (__init__ (Dict d) rl ft) idx = Ok sample ∨
   (_fetch_data_from_file fs (__init__ (Path p) rl ft) idx).2 = Ok sample) →
  ∃ how lbl, sample = sample7 step_gap how idx raw ++ lbl ∧
             label_part (store_y d) rl idx = Ok lbl.
Proof.
  intros Hp Hraw Hs.
  assert (∃ how, (lbl ← label_part (store_y d) rl idx;
                  Ok (sample7 step_gap how idx raw ++ lbl)) = Ok sample)
    as [how Heq].
  { destruct Hs as [Hs|Hs].
    - exists (Eager (store_dtype d)).
      by rewrite <- (fetch_array_eq step_gap d rl ft idx raw Hraw).
    - exists Lazy.
      by rewrite (fetch_file_init_eq step_gap fs p d rl ft idx raw Hp Hraw)
        in Hs. }
  destruct (label_part (store_y d) rl idx) as [lbl|e] eqn:Hl; [|done].
  simpl in Heq. injection Heq as <-. by exists how, lbl.
Qed.

Lemma shape_features how T F (raw : matrix fval) :
  shape T F raw → shape T F (features how raw).
Proof. intros Hsh. destruct how; simpl; by do 2 apply shape_map2d. Qed.

(** X1.  Whichever way a sample is fetched, it has seven or eight
    elements, and each of its six matrices has the [T x F] shape of the
    raw features of that sample. *)
Theorem sample_shapes fs p d rl ft idx raw T F sample :
  fs !! p = Some d → store_X d !! idx = Some raw → shape T F raw →
  (_fetch_data_from_array (__init__ (Dict d) rl ft) idx = Ok sample ∨
   (_fetch_data_from_file fs (__init__ (Path p) rl ft) idx).2 = Ok sample) →
  Forall (tensor_shape T F) sample ∧ (7 ≤ length sample ≤ 8)%nat.
Proof.
  intros Hp Hraw Hsh Hs.
  destruct (fetched_sample fs p d rl ft idx raw sample Hp Hraw Hs)
    as (how & lbl & -> & Hlbl).
  apply label_part_cases in Hlbl.
  pose proof (shape_features how T F raw Hsh) as HX.
  pose proof (shape_map2d observed T F raw Hsh) as HM.
  split.
  - apply Forall_app. split.
    + unfold sample7.
      repeat apply Forall_cons_2; try apply Forall_nil_2; simpl;
        auto using shape_flip0, parse_delta_shape.
    + destruct Hlbl as [->|[l ->]]; repeat constructor.
  - rewrite length_app. destruct Hlbl as [->|[l ->]]; simpl; lia.
Qed.

(** X2.  In a fetched sample the forward mask is 1 exactly where the raw
    feature is not NaN and 0 elsewhere; the forward feature is 0 where
    the raw one is NaN, and is the raw one where that is a finite number
    float32 holds, so that it is 0 wherever the mask is 0; and row [t]
    of the backward features and mask is row [T-1-t] of the forward
    ones. *)
Theorem sample_entries fs p d rl ft idx raw sample :
  fs !! p = Some d → store_X d !! idx = Some raw →
  (_fetch_data_from_array (__init__ (Dict d) rl ft) idx = Ok sample ∨
   (_fetch_data_from_file fs (__init__ (Path p) rl ft) idx).2 = Ok sample) →
  ∃ fX fM fD bX bM bD lbl,
    sample = [ Scalar (Z.of_nat idx); Features fX; Matrix fM; Matrix fD;
               Features bX; Matrix bM; Matrix bD ] ++ lbl ∧
    (∀ t j, entry fM t j = (λ v, if isnan v then 0 else 1)%Z <$> entry raw t j) ∧
    (∀ t j, entry raw t j = Some NaN → entry fX t j = Some (Num 0)) ∧
    (∀ t j z, entry raw t j = Some (Num z) → to_float32 (Num z) = Num z →
       entry fX t j = Some (Num z)) ∧
    (∀ t j, entry fM t j = Some 0%Z → entry fX t j = Some (Num 0)) ∧
    (∀ t j, (t < length raw)%nat →
       entry bX t j = entry fX (length raw - S t) j ∧
       entry bM t j = entry fM (length raw - S t) j).
Proof.
  intros Hp Hraw Hs.
  destruct (fetched_sample fs p d rl ft idx raw sample Hp Hraw Hs)
    as (how & lbl & -> & _).
  assert (∀ t j, entry raw t j = Some NaN →
            entry (features how raw) t j = Some (Num 0)) as Hnan.
  { intros t j Hv. rewrite entry_features, Hv. by destruct how. }
  eexists _, _, _, _, _, _, lbl. split; [reflexivity|].
  split; [|split; [|split; [|split]]].
  - intros t j. by rewrite entry_map2d.
  - exact Hnan.
  - intros t j z Hv Hz. rewrite entry_features, Hv.
    destruct how; cbn -[to_float32]; rewrite Hz; reflexivity.
  - intros t j. rewrite entry_map2d.
    destruct (entry raw t j) as [[]|] eqn:Hv; simpl; try done.
    intros _. by apply Hnan.
  - intros t j Ht.
    assert (length (features how raw) = length raw) as Hlen.
    { destruct how; unfold features, map2d; by rewrite !length_fmap. }
    rewrite !entry_flip0
      by (rewrite ?Hlen; unfold map2d; by rewrite ?length_fmap).
    rewrite Hlen. unfold map2d. rewrite !length_fmap. done.
Qed.

Lemma map3d_flip1 {A B} (f : A → B) (x : list (matrix A)) :
  map3d f (flip1 x) = flip1 (map3d f x).
Proof.
  unfold map3d, flip1, map2d. rewrite <- !list_fmap_compose.
  apply list_fmap_ext. intros _ m _. simpl. by rewrite fmap_reverse.
Qed.

Lemma flip1_involutive {A} (x : list (list A)) : flip1 (flip1 x) = x.
Proof.
  unfold flip1. rewrite <- list_fmap_compose.
  rewrite <- (list_fmap_id x) at 2. apply list_fmap_ext.
  intros _ m _. simpl. apply reverse_involutive.
Qed.

(** X3.  Reversing every sample of the input in time exchanges the
    forward and the backward view the constructor computes: features,
    mask and delta. *)
Theorem time_reversal_swaps_views d rl ft :
  processed_data (__init__ (Dict (time_reversed d)) rl ft) =
    swap_views <$> processed_data (__init__ (Dict d) rl ft).
Proof.
  unfold DatasetForBRITS.__init__, swap_views. simpl.
  rewrite !map3d_flip1, !flip1_involutive. done.
Qed.

Lemma features_within_float32 dt (raw : matrix fval) :
  Forall (Forall (within_float32 dt)) raw →
  features (Eager dt) raw = features Lazy raw.
Proof.
  intros Hin. unfold features, map2d. rewrite <- !list_fmap_compose.
  apply Forall_fmap_ext. eapply Forall_impl; [exact Hin|].
  intros row Hrow. simpl. rewrite <- !list_fmap_compose.
  apply Forall_fmap_ext. eapply Forall_impl; [exact Hrow|].
  intros v [Hv Hinf]. simpl.
  destruct v as [| | |z].
  - reflexivity.
  - destruct Hinf as [->|Hinf]; [reflexivity|discriminate Hinf].
  - destruct Hinf as [->|Hinf]; [reflexivity|discriminate Hinf].
  - change (nan_to_num dt (Num z)) with (Num z). by rewrite Hv.
Qed.

(** X4.  On data within float32 (every entry of [X] is a value float32
    holds and, unless the array is float32 itself, none is infinite) the
    eager and the lazy fetch return the same sample at every valid
    index: the same index, features, masks, deltas and label; so does
    the lazy fetch once its handle is open. *)
Theorem eager_lazy_agree_within_float32 fs p d rl ft idx :
  fs !! p = Some d →
  Forall (Forall (Forall (within_float32 (store_dtype d)))) (store_X d) →
  (idx < length (store_X d))%nat →
  (∀ ys, store_y d = Some ys → (idx < length ys)%nat) →
  ∃ sample,
    _fetch_data_from_array (__init__ (Dict d) rl ft) idx = Ok sample ∧
    (_fetch_data_from_file fs (__init__ (Path p) rl ft) idx).2 = Ok sample ∧
    (_fetch_data_from_file fs
       (_fetch_data_from_file fs (__init__ (Path p) rl ft) idx).1 idx).2 =
      Ok sample.
Proof.
  intros Hp Hin Hidx Hy.
  destruct (lookup_lt_is_Some_2 (store_X d) idx Hidx) as [raw Hraw].
  destruct (label_part_valid d rl idx Hy) as [lbl Hlbl].
  exists (sample7 step_gap Lazy idx raw ++ lbl).
  rewrite (fetch_array_eq step_gap d rl ft idx raw Hraw).
  rewrite (fetch_file_init_eq step_gap fs p d rl ft idx raw Hp Hraw).
  cbn [fst snd].
  rewrite (fetch_file_eq step_gap fs _ d idx raw); [|by left|done].
  cbn [fst snd].
  change (return_labels
            (set_file_handle (Some d) (__init__ (Path p) rl ft)))
    with rl.
  rewrite Hlbl. unfold sample7.
  rewrite (features_within_float32 (store_dtype d) raw).
  - repeat split.
  - rewrite Forall_lookup in Hin. exact (Hin idx raw Hraw).
Qed.

(** X5.  The file is opened once: the first fetch on a lazy dataset,
    whatever its index, leaves the handle of the store at the path in
    the object, and every later fetch reads from that handle, returns
    what a first fetch of that index returns, and leaves the object as
    it is, whatever the path holds by then. *)
Theorem file_opened_once fs p d rl ft idx :
  fs !! p = Some d →
  let self' := (_fetch_data_from_file fs (__init__ (Path p) rl ft) idx).1 in
  file_handle self' = Some d ∧
  ∀ fs' idx',
    _fetch_data_from_file fs' self' idx' =
      (self', (_fetch_data_from_file fs (__init__ (Path p) rl ft) idx').2).
Proof.
  intros Hp.
  assert (∀ i, ∃ r,
            _fetch_data_from_file fs (__init__ (Path p) rl ft) i =
              (set_file_handle (Some d) (__init__ (Path p) rl ft), r) ∧
            ∀ fs', _fetch_data_from_file fs'
                     (set_file_handle (Some d) (__init__ (Path p) rl ft)) i =
                   (set_file_handle (Some d) (__init__ (Path p) rl ft), r))
    as Hfetch.
  { intros i. eexists. split.
    - unfold DatasetForBRITS._fetch_data_from_file at 1,
        DatasetForBRITS.__init__, _open_file_handle. simpl.
      rewrite Hp. simpl. reflexivity.
    - intros fs'. reflexivity. }
  destruct (Hfetch idx) as (r & Hr & _). cbv zeta. rewrite Hr. cbn [fst].
  split; [done|]. intros fs' idx'.
  destruct (Hfetch idx') as (r' & Hr' & Hr''). by rewrite Hr', Hr''.
Qed.

End MoreDatasetFacts.

(** ** More on the training loop of [USGAN] *)

Lemma flt_nan_l x : flt NaN x = false.
Proof. by destruct x. Qed.

Lemma flt_not_nan x y : flt x y = true → isnan x = false.
Proof. by destruct x, y. Qed.

Lemma flt_irrefl x : flt x x = false.
Proof. destruct x; simpl; try done. apply Z.ltb_irrefl. Qed.

(** A loss that was not below the old best is not below a better one. *)
Lemma flt_false_below g b b' :
  flt g b = false → flt b' b = true → flt g b' = false.
Proof.
  destruct g, b, b'; simpl; try done.
  intros H1 H2. apply Z.ltb_ge in H1. apply Z.ltb_lt in H2.
  apply Z.ltb_ge. lia.
Qed.

Section MoreTrainingFacts.
Import BaseNN USGAN.
Context {state_dict loader : Type}.
Variable run_epoch : loader → nat → epoch_outcome state_dict.
Local Abbreviation self_t := (BaseNNModel state_dict).
Local Abbreviation epoch_body := (USGAN.epoch_body run_epoch).
Local Abbreviation epoch_loop := (USGAN.epoch_loop run_epoch).
Local Abbreviation _train_model := (USGAN._train_model run_epoch).
Local Abbreviation fit := (USGAN.fit run_epoch).

(** The three ways through the body of the loop, with what each does to
    the losses the trace reports. *)
Lemma epoch_body_cases tl e (s : self_t) :
  let s' := (epoch_body tl e s).1 in
  (∃ g dl sd, run_epoch tl e = EpochDone g dl sd ∧
      flt g (best_loss s) = true ∧ (epoch_body tl e s).2 = Next ∧
      best_loss s' = g ∧ best_model_dict s' = Some sd ∧
      patience s' = original_patience s ∧
      original_patience s' = original_patience s ∧
      losses_logged (trace s') = losses_logged (trace s) ++ [g] ∧
      epochs_logged (trace s') = epochs_logged (trace s) ++ [e]) ∨
  (∃ g dl sd, run_epoch tl e = EpochDone g dl sd ∧
      flt g (best_loss s) = false ∧
      (epoch_body tl e s).2 =
        (if (patience s - 1 =? 0)%Z then Break else Next) ∧
      best_loss s' = best_loss s ∧ best_model_dict s' = best_model_dict s ∧
      patience s' = (patience s - 1)%Z ∧
      original_patience s' = original_patience s ∧
      losses_logged (trace s') = losses_logged (trace s) ++ [g] ∧
      epochs_logged (trace s') = epochs_logged (trace s) ++ [e]) ∨
  (∃ msg, run_epoch tl e = EpochRaised msg ∧
      (epoch_body tl e s).2 = Raised msg ∧
      best_loss s' = best_loss s ∧ best_model_dict s' = best_model_dict s ∧
      patience s' = patience s ∧
      original_patience s' = original_patience s ∧
      trace s' = trace s).
Proof.
  destruct (run_epoch tl e) as [g dl sd|msg] eqn:Hrun.
  - destruct (flt g (best_loss s)) eqn:Hflt.
    + left. exists g, dl, sd.
      destruct (epoch_body_improve run_epoch tl e s g dl sd Hrun Hflt)
        as (Hn&(_&Hop&_)&Hp&Hb&Hm&_&He&_).
      repeat (split; [done|]). split; [|done].
      unfold USGAN.epoch_body. rewrite Hrun. simpl. rewrite Hflt. cbn [fst].
      unfold _auto_save_model_if_necessary. simpl.
      destruct (saving_path s), (model_saving_strategy s) as [[]|]; simpl;
        unfold losses_logged; rewrite ?omap_app; simpl;
        rewrite ?app_nil_r; done.
    + right; left. exists g, dl, sd.
      destruct (epoch_body_flat run_epoch tl e s g dl sd Hrun Hflt)
        as (Hc&(_&Hop&_)&Hp&Hb&Hm&He&_).
      repeat (split; [done|]). split; [|done].
      unfold USGAN.epoch_body. rewrite Hrun. simpl. rewrite Hflt.
      destruct (patience s - 1 =? 0)%Z; cbn [fst]; simpl;
        unfold losses_logged; rewrite ?omap_app; simpl;
        rewrite ?app_nil_r; done.
  - right; right. exists msg.
    rewrite (epoch_body_raised run_epoch tl e s msg Hrun). done.
Qed.

(** What the body of the loop preserves, the loop preserves. *)
Lemma epoch_loop_preserves (P : self_t → Prop) tl :
  (∀ e s, P s → P (epoch_body tl e s).1) →
  ∀ range s, P s → P (epoch_loop tl range s).1.
Proof.
  intros Hstep range. induction range as [|e rest IH]; intros s Hs; [done|].
  rewrite epoch_loop_cons. specialize (Hstep e s Hs).
  destruct (epoch_body tl e s).2; [by apply IH|done..].
Qed.

(** After the loop, what [_train_model] adds is lines that are not
    epoch reports. *)
Lemma train_model_fields tl vl (s : self_t) :
  let r := epoch_loop tl (seq 0 (epochs s))
             (set_best_model_dict None (set_best_loss PInf s)) in
  let s' := (_train_model tl vl s).1 in
  best_loss s' = best_loss r.1 ∧ best_model_dict s' = best_model_dict r.1 ∧
  patience s' = patience r.1 ∧
  losses_logged (trace s') = losses_logged (trace r.1) ∧
  epochs_logged (trace s') = epochs_logged (trace r.1) ∧
  ((_train_model tl vl s).2 = Ok () → is_pinf (best_loss r.1) = false).
Proof.
  rewrite train_model_unfold. cbv zeta.
  destruct (epoch_loop tl _ _).2;
    [| |destruct (best_model_dict _) eqn:Hb];
    try destruct (is_pinf _) eqn:Hp; cbn [fst snd]; simpl;
    unfold losses_logged, epochs_logged; rewrite ?omap_app; simpl;
    rewrite ?app_nil_r; done.
Qed.

Lemma train_model_raises tl vl (s : self_t) e :
  (_train_model tl vl s).2 = Raise e → e = RuntimeError ∨ e = ValueError.
Proof.
  rewrite train_model_unfold. cbv zeta.
  destruct (epoch_loop tl _ _).2;
    [| |destruct (best_model_dict _)];
    try destruct (is_pinf _); cbn [snd]; intros Heq; inversion Heq; auto.
Qed.

Lemma epoch_body_snapshot_inv tl e (s : self_t) :
  snapshot_inv s → snapshot_inv (epoch_body tl e s).1.
Proof.
  unfold snapshot_inv. intros Hs.
  destruct (epoch_body_cases tl e s)
    as [(g&dl&sd&_&Hflt&_&Hb&Hm&_)|[(g&dl&sd&_&_&_&Hb&Hm&_)|
        (msg&_&_&Hb&Hm&_)]];
    rewrite Hm, Hb; [|done..].
  split; [by eapply flt_not_pinf|by eapply flt_not_nan].
Qed.

(** X6.  [fit] ends in one of three ways.  When it returns, the model
    holds the parameters of the best snapshot and is in evaluation mode,
    and the best loss is neither the initial infinity nor NaN; otherwise
    it raises [RuntimeError] or [ValueError], the exceptions raised
    inside the epochs having been caught. *)
Theorem fit_outcomes tl vl (s : self_t) :
  match (fit tl vl s).2 with
  | Ok _ =>
      ∃ sd, best_model_dict (fit tl vl s).1 = Some sd ∧
            model (fit tl vl s).1 = sd ∧ training (fit tl vl s).1 = false ∧
            is_pinf (best_loss (fit tl vl s).1) = false ∧
            isnan (best_loss (fit tl vl s).1) = false
  | Raise e => e = RuntimeError ∨ e = ValueError
  end.
Proof.
  pose proof (epoch_loop_preserves snapshot_inv tl
                (epoch_body_snapshot_inv tl) (seq 0 (epochs s))
                (set_best_model_dict None (set_best_loss PInf s)) eq_refl)
    as Hinv.
  destruct (train_model_fields tl vl s) as (Hb&Hm&_&_&_&Hok).
  cbv zeta in Hb, Hm, Hok. unfold snapshot_inv in Hinv.
  rewrite <- Hm, <- Hb in Hinv.
  rewrite fit_unfold. cbv zeta.
  destruct (_train_model tl vl s).2 as [[]|e] eqn:Hres.
  - destruct (best_model_dict (_train_model tl vl s).1) as [sd|] eqn:Hsd.
    + cbn [fst snd].
      match goal with
      | |- context [_auto_save_model_if_necessary ?c ?f ?n ?s0] =>
          destruct (auto_save_fields c f n s0) as (_&_&Hmo&Htr&Hbl&Hbm&_)
      end.
      exists sd. rewrite Hmo, Htr, Hbl, Hbm. simpl. by destruct Hinv.
    + specialize (Hok eq_refl). rewrite <- Hb, Hinv in Hok. done.
  - cbn [snd]. by apply (train_model_raises tl vl s).
Qed.

(** X7.  The best loss is the least loss reported: no epoch of the run
    reported a generator loss strictly below the best loss the run ends
    with, and when [_train_model] returns, that best loss is one of the
    losses reported. *)
Theorem best_loss_is_least tl vl (s : self_t) :
  ∃ new,
    losses_logged (trace (_train_model tl vl s).1) =
      losses_logged (trace s) ++ new ∧
    Forall (λ g, flt g (best_loss (_train_model tl vl s).1) = false) new ∧
    ((_train_model tl vl s).2 = Ok () →
     best_loss (_train_model tl vl s).1 ∈ new).
Proof.
  set (P := λ s' : self_t,
         ∃ new, losses_logged (trace s') = losses_logged (trace s) ++ new ∧
                Forall (λ g, flt g (best_loss s') = false) new ∧
                (best_loss s' = PInf ∨ best_loss s' ∈ new)).
  assert (∀ e s', P s' → P (epoch_body tl e s').1) as Hstep.
  { intros e s' (new & Hl & Hall & Hin).
    destruct (epoch_body_cases tl e s')
      as [(g&dl&sd&_&Hflt&_&Hb&_&_&_&Hlg&_)|[(g&dl&sd&_&Hflt&_&Hb&_&_&_&Hlg&_)|
          (msg&_&_&Hb&_&_&_&Htr)]].
    - exists (new ++ [g]). rewrite Hlg, Hl, Hb, app_assoc. split; [done|].
      split; [|right; apply elem_of_app; right; by apply list_elem_of_singleton].
      apply Forall_app. split.
      + eapply Forall_impl; [exact Hall|]. intros g' Hg'. simpl in *.
        by eapply flt_false_below.
      + repeat constructor. apply flt_irrefl.
    - exists (new ++ [g]). rewrite Hlg, Hl, Hb, app_assoc. split; [done|].
      split.
      + apply Forall_app. split; [done|]. by repeat constructor.
      + destruct Hin as [?|?]; [by left|right].
        apply elem_of_app. by left.
    - exists new. rewrite Htr, Hb. done. }
  assert (P (set_best_model_dict None (set_best_loss PInf s))) as H0.
  { exists []. simpl. rewrite app_nil_r. repeat split; [constructor|by left]. }
  pose proof (epoch_loop_preserves P tl Hstep (seq 0 (epochs s)) _ H0)
    as (new & Hl & Hall & Hin).
  destruct (train_model_fields tl vl s) as (Hb&_&_&Hlg&_&Hok).
  cbv zeta in Hb, Hlg, Hok.
  exists new. rewrite Hlg, Hb. split; [done|]. split; [done|].
  intros Hres. specialize (Hok Hres).
  destruct Hin as [Hinf|?]; [|done]. by rewrite Hinf in Hok.
Qed.

(** The epochs a loop over [a, a+1, ...] reports are an initial segment
    of its range, the whole of it when the loop is not left early. *)
Lemma epoch_loop_segment tl : ∀ n a (s : self_t),
  ∃ k, (k ≤ n)%nat ∧
    epochs_logged (trace (epoch_loop tl (seq a n) s).1) =
      epochs_logged (trace s) ++ seq a k ∧
    ((epoch_loop tl (seq a n) s).2 = Next → k = n).
Proof.
  induction n as [|n IH]; intros a s.
  - exists 0%nat. simpl. rewrite app_nil_r. done.
  - change (seq a (S n)) with (a :: seq (S a) n). rewrite epoch_loop_cons.
    destruct (epoch_body_cases tl a s)
      as [(g&dl&sd&_&_&Hc&_&_&_&_&_&He)|[(g&dl&sd&_&_&Hc&_&_&_&_&_&He)|
          (msg&_&Hc&_&_&_&_&Htr)]].
    + rewrite Hc. destruct (IH (S a) (epoch_body tl a s).1) as (k&Hk&Hel&Hn).
      exists (S k). split; [lia|]. rewrite Hel, He, <- app_assoc.
      split; [done|]. intros Hnext. by rewrite (Hn Hnext).
    + rewrite Hc. destruct (patience s - 1 =? 0)%Z.
      * exists 1%nat. split; [lia|]. rewrite He. split; [done|].
        rewrite Hc. done.
      * destruct (IH (S a) (epoch_body tl a s).1) as (k&Hk&Hel&Hn).
        exists (S k). split; [lia|]. rewrite Hel, He, <- app_assoc.
        split; [done|]. intros Hnext. by rewrite (Hn Hnext).
    + rewrite Hc. exists 0%nat. split; [lia|]. rewrite Htr, app_nil_r.
      split; [done|]. rewrite Hc. done.
Qed.

(** X8.  The epochs a training reports are 0, 1, ..., k-1 for some
    [k] that does not exceed the configured number of epochs: none is
    skipped, none is repeated, none is run beyond the count. *)
Theorem epochs_run_in_order tl vl (s : self_t) :
  ∃ k, (k ≤ epochs s)%nat ∧
    epochs_logged (trace (_train_model tl vl s).1) =
      epochs_logged (trace s) ++ seq 0 k.
Proof.
  destruct (epoch_loop_segment tl (epochs s) 0%nat
              (set_best_model_dict None (set_best_loss PInf s)))
    as (k & Hk & Hel & _).
  destruct (train_model_fields tl vl s) as (_&_&_&_&He&_).
  cbv zeta in He. exists k. split; [done|]. by rewrite He, Hel.
Qed.

(** X9.  A patience of zero or less never stops the training: when no
    epoch raises, all the configured epochs are run, however the losses
    go. *)
Theorem nonpositive_patience_never_stops tl vl (s : self_t) :
  (original_patience s ≤ 0)%Z → (patience s ≤ 0)%Z →
  (∀ e, (e < epochs s)%nat → ∃ g dl sd, run_epoch tl e = EpochDone g dl sd) →
  epochs_logged (trace (_train_model tl vl s).1) =
    epochs_logged (trace s) ++ seq 0 (epochs s).
Proof.
  intros Hop Hp Hdone.
  assert (∀ n a (s' : self_t),
            (original_patience s' ≤ 0)%Z → (patience s' ≤ 0)%Z →
            (∀ e, (a ≤ e < a + n)%nat →
               ∃ g dl sd, run_epoch tl e = EpochDone g dl sd) →
            (epoch_loop tl (seq a n) s').2 = Next) as Hnext.
  { induction n as [|n IH]; intros a s' Hop' Hp' Hd; [done|].
    change (seq a (S n)) with (a :: seq (S a) n). rewrite epoch_loop_cons.
    destruct (Hd a) as (g0&dl0&sd0&Hrun); [lia|].
    destruct (epoch_body_cases tl a s')
      as [(g&dl&sd&_&_&Hc&_&_&Hpa&Hor&_)|[(g&dl&sd&_&_&Hc&_&_&Hpa&Hor&_)|
          (msg&Hr&_)]]; [| |congruence].
    - rewrite Hc. apply IH; [lia..|]. intros e He. apply Hd. lia.
    - rewrite Hc.
      replace (patience s' - 1 =? 0)%Z with false
        by (symmetry; apply Z.eqb_neq; lia).
      apply IH; [lia..|]. intros e He. apply Hd. lia. }
  destruct (epoch_loop_segment tl (epochs s) 0%nat
              (set_best_model_dict None (set_best_loss PInf s)))
    as (k & Hk & Hel & Hn).
  assert (k = epochs s) as ->.
  { apply Hn, Hnext; [done..|]. intros e He. apply Hdone. lia. }
  destruct (train_model_fields tl vl s) as (_&_&_&_&He&_).
  cbv zeta in He. by rewrite He, Hel.
Qed.

End MoreTrainingFacts.

(** ** Assembling the inputs *)

Ltac by_length data :=
  destruct data as [|? [|? [|? [|? [|? [|? [|? [|? [|? data]]]]]]]]].

Section AssembleFacts.
Context {T : Type}.
Variable to_device : T → T.
Variable permute_0_2_1 : T → T.

(** X10.  [USGAN._assemble_input_for_training] succeeds on a data list
    of exactly seven elements and raises [ValueError] on any other; the
    inputs it returns have the three keys [indices], [forward],
    [backward], and hold the elements of the list, placed on the device,
    in the order index, forward X, mask, deltas, backward X, mask,
    deltas; the validating and testing variants are the same
    function. *)
Theorem usgan_inputs (data : list T) :
  (length data ≠ 7%nat →
   USGAN_assemble_input_for_training to_device data = Raise ValueError) ∧
  (length data = 7%nat →
   ∃ inputs f b,
     USGAN_assemble_input_for_training to_device data = Ok inputs ∧
     dom inputs = {[ "indices"; "forward"; "backward" ]}%string ∧
     inputs !! "indices"%string = Tensor ∘ to_device <$> data !! 0%nat ∧
     inputs !! "forward"%string = Some (Group f) ∧
     inputs !! "backward"%string = Some (Group b) ∧
     f !! "X"%string = to_device <$> data !! 1%nat ∧
     f !! "missing_mask"%string = to_device <$> data !! 2%nat ∧
     f !! "deltas"%string = to_device <$> data !! 3%nat ∧
     b !! "X"%string = to_device <$> data !! 4%nat ∧
     b !! "missing_mask"%string = to_device <$> data !! 5%nat ∧
     b !! "deltas"%string = to_device <$> data !! 6%nat) ∧
  USGAN_assemble_input_for_validating to_device data =
    USGAN_assemble_input_for_training to_device data ∧
  USGAN_assemble_input_for_testing to_device data =
    USGAN_assemble_input_for_training to_device data.
Proof.
  split; [|split; [|done]].
  - intros Hlen. by_length data; simpl in Hlen; try done; lia.
  - intros Hlen. by_length data; simpl in Hlen; try lia.
    eexists _, _, _. split; [reflexivity|]. split; [set_solver|].
    repeat split; by simplify_map_eq.
Qed.

(** X11.  Of the classifier [BRITS], the training inputs need eight
    elements, the last being the label, and the testing inputs need
    seven; on any other number each raises [ValueError].  The testing
    inputs of a data list are the training inputs of that list with a
    label appended, less the entry [label]. *)
Theorem brits_inputs (data : list T) :
  (length data ≠ 8%nat →
   BRITS_assemble_input_for_training to_device data = Raise ValueError) ∧
  (length data ≠ 7%nat →
   BRITS_assemble_input_for_testing to_device data = Raise ValueError) ∧
  (length data = 8%nat →
   ∃ inputs,
     BRITS_assemble_input_for_training to_device data = Ok inputs ∧
     dom inputs = {[ "indices"; "label"; "forward"; "backward" ]}%string ∧
     inputs !! "label"%string = Tensor ∘ to_device <$> data !! 7%nat) ∧
  (∀ label,
     BRITS_assemble_input_for_testing to_device data =
       delete "label"%string <$>
         BRITS_assemble_input_for_training to_device (data ++ [label])).
Proof.
  split; [|split; [|split]].
  - intros Hlen. by_length data; simpl in Hlen; try done; lia.
  - intros Hlen. by_length data; simpl in Hlen; try done; lia.
  - intros Hlen. by_length data; simpl in Hlen; try lia.
    eexists. split; [reflexivity|]. split; [set_solver|]. by simplify_map_eq.
  - intros label. by_length data; done.
Qed.

(** X12.  [CSDI._assemble_input_for_training] succeeds on seven
    elements and raises [ValueError] otherwise; the inputs have six
    keys, the index is left out, the observed data, the observed mask
    and the ground-truth mask are permuted and the three others are
    passed as they are; validating and testing use the same function. *)
Theorem csdi_inputs (data : list T) :
  (length data ≠ 7%nat →
   CSDI_assemble_input_for_training to_device permute_0_2_1 data =
     Raise ValueError) ∧
  (length data = 7%nat →
   ∃ inputs,
     CSDI_assemble_input_for_training to_device permute_0_2_1 data =
       Ok inputs ∧
     dom inputs = {[ "observed_data"; "observed_mask"; "observed_tp";
                     "gt_mask"; "for_pattern_mask"; "cut_length" ]}%string ∧
     inputs !! "indices"%string = None ∧
     inputs !! "observed_data"%string =
       permute_0_2_1 ∘ to_device <$> data !! 1%nat ∧
     inputs !! "observed_mask"%string =
       permute_0_2_1 ∘ to_device <$> data !! 2%nat ∧
     inputs !! "observed_tp"%string = to_device <$> data !! 3%nat ∧
     inputs !! "gt_mask"%string =
       permute_0_2_1 ∘ to_device <$> data !! 4%nat ∧
     inputs !! "for_pattern_mask"%string = to_device <$> data !! 5%nat ∧
     inputs !! "cut_length"%string = to_device <$> data !! 6%nat) ∧
  CSDI_assemble_input_for_testing to_device permute_0_2_1 data =
    CSDI_assemble_input_for_training to_device permute_0_2_1 data.
Proof.
  split; [|split; [|done]].
  - intros Hlen. by_length data; simpl in Hlen; try done; lia.
  - intros Hlen. by_length data; simpl in Hlen; try lia.
    eexists. split; [reflexivity|]. split; [set_solver|].
    repeat split; by simplify_map_eq.
Qed.

End AssembleFacts.

Section InputsOfSamples.
Import DatasetForBRITS.
Variable step_gap : Z.
Variable to_device : tensor → tensor.

(** The label a fetched sample ends with is the one [label_part]
    gives. *)
Lemma fetched_sample_label fs p d rl ft idx raw sample :
  fs !! p = Some d → store_X d !! idx = Some raw →
  (_fetch_data_from_array (__init__ step_gap (Dict d) rl ft) idx = Ok sample ∨
   (_fetch_data_from_file step_gap fs (__init__ step_gap (Path p) rl ft)
      idx).2 = Ok sample) →
  ∃ how lbl, label_part (store_y d) rl idx = Ok lbl ∧
             sample = sample7 step_gap how idx raw ++ lbl.
Proof.
  intros Hp Hraw Hs.
  destruct (fetched_sample step_gap fs p d rl ft idx raw sample Hp Hraw Hs)
    as (how & lbl & -> & Hl).
  by exists how, lbl.
Qed.

(** X13.  The elements of a sample fetched without labels are the seven
    the testing inputs of [BRITS] and the inputs of [USGAN] unpack.  The
    elements of a sample fetched with labels are the eight the training
    inputs of [BRITS] unpack, the entry [label] being the label of the
    sample, and the testing inputs refuse them; when the data holds no
    labels, the training inputs of [BRITS] raise [ValueError]. *)
Theorem samples_fit_the_inputs fs p d ft idx raw :
  fs !! p = Some d → store_X d !! idx = Some raw →
  (∀ sample,
     (_fetch_data_from_array (__init__ step_gap (Dict d) false ft) idx =
        Ok sample ∨
      (_fetch_data_from_file step_gap fs
         (__init__ step_gap (Path p) false ft) idx).2 = Ok sample) →
     (∃ inputs,
        BRITS_assemble_input_for_testing to_device sample = Ok inputs) ∧
     (∃ inputs,
        USGAN_assemble_input_for_training to_device sample = Ok inputs)) ∧
  (∀ sample,
     (_fetch_data_from_array (__init__ step_gap (Dict d) true ft) idx =
        Ok sample ∨
      (_fetch_data_from_file step_gap fs
         (__init__ step_gap (Path p) true ft) idx).2 = Ok sample) →
     match store_y d with
     | Some ys =>
         ∃ inputs l,
           ys !! idx = Some l ∧
           BRITS_assemble_input_for_training to_device sample = Ok inputs ∧
           inputs !! "label"%string = Some (Tensor (to_device (Scalar l))) ∧
           BRITS_assemble_input_for_testing to_device sample =
             Raise ValueError
     | None =>
         BRITS_assemble_input_for_training to_device sample =
           Raise ValueError
     end).
Proof.
  intros Hp Hraw. split.
  - intros sample Hs.
    destruct (fetched_sample_label fs p d false ft idx raw sample Hp Hraw Hs)
      as (how & lbl & Hl & ->).
    assert (lbl = []) as ->.
    { unfold label_part in Hl. destruct (store_y d); by injection Hl. }
    split; eexists; reflexivity.
  - intros sample Hs.
    destruct (fetched_sample_label fs p d true ft idx raw sample Hp Hraw Hs)
      as (how & lbl & Hl & ->).
    unfold label_part in Hl. destruct (store_y d) as [ys|].
    + unfold getitem in Hl. destruct (ys !! idx) as [l|]; [|done].
      simpl in Hl. injection Hl as <-.
      eexists _, l. split; [done|]. split; [reflexivity|].
      split; [by simplify_map_eq|done].
    + injection Hl as <-. done.
Qed.

End InputsOfSamples.

(** ** [predict] *)

Lemma mapM_result_ok {A B} (f : A → result B) (g : A → B) (l : list A) :
  (∀ a, a ∈ l → f a = Ok (g a)) → mapM f l = Ok (g <$> l).
Proof.
  induction l as [|a l IH]; intros Hf; [done|].
  simpl. rewrite (Hf a) by (by left). simpl.
  rewrite IH; [done|]. intros x Hx. apply Hf. by right.
Qed.

Lemma mapM_result_fail {A B} (f : A → result B) (pre post : list A) a e :
  (∀ x, x ∈ pre → ∃ y, f x = Ok y) → f a = Raise e →
  mapM f (pre ++ a :: post) = Raise e.
Proof.
  induction pre as [|x pre IH]; intros Hpre Ha.
  - simpl. by rewrite Ha.
  - simpl. destruct (Hpre x) as [y ->]; [by left|]. simpl.
    rewrite IH; [done| |done]. intros z Hz. apply Hpre. by right.
Qed.

Section PredictFacts.
Context {state_dict dataset batch array : Type}.
Variable test_loader : dataset → string → result (list batch).
Variable forward : state_dict → batch → result (gmap string array).
Variable forward_n : state_dict → batch → nat → result (gmap string array).
Variable cat : list array → result array.

(** X14.  [predict] of the three models changes nothing of the model
    but its mode, which becomes evaluation; and when every batch of the
    test loader gives an output under the key the method reads, the
    result is the concatenation of these outputs in the order of the
    batches, under the key [imputation] ([classification] for the
    classifier). *)
Theorem predict_keeps_order X file_type (s : BaseNNModel state_dict)
    batches (out : batch → array) :
  test_loader X file_type = Ok batches →
  ((USGAN.predict test_loader forward cat X file_type s).1 =
     BaseNN.set_training false s ∧
   ((∀ b, b ∈ batches →
       ∃ r, forward (model s) b = Ok r ∧
            r !! "imputed_data"%string = Some (out b)) →
    (USGAN.predict test_loader forward cat X file_type s).2 =
      (v ← cat (out <$> batches); Ok {[ "imputation"%string := v ]}))) ∧
  (∀ n,
     (CSDI.predict test_loader forward_n cat X file_type n s).1 =
       BaseNN.set_training false s ∧
     ((∀ b, b ∈ batches →
         ∃ r, forward_n (model s) b n = Ok r ∧
              r !! "imputed_data"%string = Some (out b)) →
      (CSDI.predict test_loader forward_n cat X file_type n s).2 =
        (v ← cat (out <$> batches); Ok {[ "imputation"%string := v ]}))) ∧
  ((BRITS.predict test_loader forward cat X file_type s).1 =
     BaseNN.set_training false s ∧
   ((∀ b, b ∈ batches →
       ∃ r, forward (model s) b = Ok r ∧
            r !! "classification_pred"%string = Some (out b)) →
    (BRITS.predict test_loader forward cat X file_type s).2 =
      (v ← cat (out <$> batches); Ok {[ "classification"%string := v ]}))).
Proof.
  intros Hload.
  split; [|split]; try intros n; (split; [reflexivity|]); intros Hout;
    unfold USGAN.predict, CSDI.predict, BRITS.predict; cbn [snd];
    rewrite Hload; simpl;
    (erewrite (mapM_result_ok _ out batches);
     [done|intros b Hb; destruct (Hout b Hb) as (r & Hr & Hk); simpl;
           rewrite Hr; simpl; unfold dict_get; by rewrite Hk]).
Qed.

(** X15.  [predict] stops at the first batch that fails: when the
    batches before it give their outputs and the model raises on it, or
    returns no entry under the key the method reads, [predict] raises
    that exception, respectively [KeyError] of that key, and the batches
    after it do not matter. *)
Theorem predict_first_failure X file_type (s : BaseNNModel state_dict)
    pre b post :
  test_loader X file_type = Ok (pre ++ b :: post) →
  ((∀ x, x ∈ pre → ∃ r v, forward (model s) x = Ok r ∧
                           r !! "imputed_data"%string = Some v) →
   (∀ e, forward (model s) b = Raise e →
      (USGAN.predict test_loader forward cat X file_type s).2 = Raise e) ∧
   (∀ r, forward (model s) b = Ok r → r !! "imputed_data"%string = None →
      (USGAN.predict test_loader forward cat X file_type s).2 =
        Raise (KeyError "imputed_data"))) ∧
  ((∀ x, x ∈ pre → ∃ r v, forward (model s) x = Ok r ∧
                           r !! "classification_pred"%string = Some v) →
   (∀ e, forward (model s) b = Raise e →
      (BRITS.predict test_loader forward cat X file_type s).2 = Raise e) ∧
   (∀ r, forward (model s) b = Ok r →
      r !! "classification_pred"%string = None →
      (BRITS.predict test_loader forward cat X file_type s).2 =
        Raise (KeyError "classification_pred"))).
Proof.
  intros Hload.
  assert (∀ key,
            (∀ x, x ∈ pre → ∃ r v, forward (model s) x = Ok r ∧
                                    r !! key = Some v) →
            (∀ e, forward (model s) b = Raise e →
               mapM (λ data, results ← forward (model s) data;
                             dict_get results key) (pre ++ b :: post) =
                 Raise e) ∧
            (∀ r, forward (model s) b = Ok r → r !! key = None →
               mapM (λ data, results ← forward (model s) data;
                             dict_get results key) (pre ++ b :: post) =
                 Raise (KeyError key))) as Hfail.
  { intros key Hpre.
    assert (∀ x, x ∈ pre → ∃ y,
              (results ← forward (model s) x; dict_get results key) = Ok y)
      as Hpre'.
    { intros x Hx. destruct (Hpre x Hx) as (r & v & Hr & Hk). exists v.
      rewrite Hr. simpl. unfold dict_get. by rewrite Hk. }
    split.
    - intros e He. apply mapM_result_fail; [exact Hpre'|]. by rewrite He.
    - intros r Hr Hk. apply mapM_result_fail; [exact Hpre'|].
      rewrite Hr. simpl. unfold dict_get. by rewrite Hk. }
  split; intros Hpre; destruct (Hfail _ Hpre) as [Hraise Hkey];
    (split; [intros e He|intros r Hr Hk]);
    unfold USGAN.predict, BRITS.predict; cbn [snd]; rewrite Hload; simpl;
    rewrite ?(Hraise e He), ?(Hkey r Hr Hk); done.
Qed.

End PredictFacts.

(** ** The steps of an epoch *)

Lemma np_mean_nan mean_rest (l : list fval) :
  NaN ∈ l → np_mean mean_rest l = NaN.
Proof.
  intros Hin. destruct l as [|x [|y l]].
  - by apply elem_of_nil in Hin.
  - apply list_elem_of_singleton in Hin. by subst.
  - unfold np_mean.
    assert (existsb isnan (x :: y :: l) = true) as ->; [|done].
    apply existsb_exists. exists NaN. split; [|done].
    by apply list_elem_of_In.
Qed.

Section ReportFacts.
Import BaseNN USGAN.
Context {state_dict loader : Type}.
Variable run_epoch : loader → nat → epoch_outcome state_dict.
Local Abbreviation self_t := (BaseNNModel state_dict).

(** Every line the body of the loop adds for an epoch reports the
    outcome of that epoch. *)
Lemma epoch_body_reports tl e (s : self_t) :
  reports (trace (USGAN.epoch_body run_epoch tl e s).1) =
    reports (trace s) ++
      match run_epoch tl e with
      | EpochDone g d _ => [(e, g, d)]
      | EpochRaised _ => []
      end.
Proof.
  unfold USGAN.epoch_body. destruct (run_epoch tl e) as [g d sd|msg].
  - simpl. destruct (flt g (best_loss s)).
    + cbn [fst]. unfold _auto_save_model_if_necessary. simpl.
      destruct (saving_path s), (model_saving_strategy s) as [[]|]; simpl;
        unfold reports; rewrite ?omap_app; simpl; rewrite ?app_nil_r; done.
    + destruct (patience s - 1 =? 0)%Z; cbn [fst]; simpl;
        unfold reports; rewrite ?omap_app; simpl; rewrite ?app_nil_r; done.
  - simpl. by rewrite app_nil_r.
Qed.

Lemma train_model_reports tl vl (s : self_t) :
  ∃ new,
    reports (trace (USGAN._train_model run_epoch tl vl s).1) =
      reports (trace s) ++ new ∧
    Forall (λ r, ∃ sd, run_epoch tl r.1.1 = EpochDone r.1.2 r.2 sd) new.
Proof.
  set (P := λ s' : self_t,
         ∃ new, reports (trace s') = reports (trace s) ++ new ∧
           Forall (λ r, ∃ sd, run_epoch tl r.1.1 = EpochDone r.1.2 r.2 sd)
                  new).
  assert (∀ e s', P s' → P (USGAN.epoch_body run_epoch tl e s').1) as Hstep.
  { intros e s' (new & Hr & Hall).
    pose proof (epoch_body_reports tl e s') as Hrep. rewrite Hr in Hrep.
    destruct (run_epoch tl e) as [g d sd|msg] eqn:Hrun.
    - exists (new ++ [(e, g, d)]). rewrite Hrep, app_assoc. split; [done|].
      apply Forall_app. split; [done|]. repeat constructor. simpl.
      by exists sd.
    - exists new. by rewrite Hrep, app_nil_r. }
  assert (P (set_best_model_dict None (set_best_loss PInf s))) as H0.
  { exists []. simpl. by rewrite app_nil_r. }
  pose proof (epoch_loop_preserves run_epoch P tl Hstep (seq 0 (epochs s))
                _ H0) as (new & Hr & Hall).
  exists new. split; [|done]. rewrite <- Hr.
  rewrite train_model_unfold. cbv zeta.
  destruct (USGAN.epoch_loop run_epoch tl _ _).2;
    [| |destruct (best_model_dict _)];
    try destruct (is_pinf _); cbn [fst]; simpl;
    unfold reports; rewrite ?omap_app; simpl; rewrite ?app_nil_r; done.
Qed.

(** When every loss reported is NaN, nothing improves and
    [_train_model] raises. *)
Lemma all_nan_never_returns tl vl (s : self_t) :
  (∀ e g d sd, run_epoch tl e = EpochDone g d sd → g = NaN) →
  (USGAN._train_model run_epoch tl vl s).2 = Raise RuntimeError ∨
  (USGAN._train_model run_epoch tl vl s).2 = Raise ValueError.
Proof.
  intros Hnan.
  assert (∀ e (s' : self_t), best_loss s' = PInf →
            best_loss (USGAN.epoch_body run_epoch tl e s').1 = PInf) as Hstep.
  { intros e s' Hs'.
    destruct (epoch_body_cases run_epoch tl e s')
      as [(g&dl&sd&Hrun&Hflt&_)|[(g&dl&sd&_&_&_&Hb&_)|(msg&_&_&Hb&_)]];
      [|congruence..].
    rewrite (Hnan _ _ _ _ Hrun), flt_nan_l in Hflt. done. }
  pose proof (epoch_loop_preserves run_epoch (λ s', best_loss s' = PInf) tl
                Hstep (seq 0 (epochs s))
                (set_best_model_dict None (set_best_loss PInf s)) eq_refl)
    as Hinf.
  destruct (train_model_fields run_epoch tl vl s) as (_&_&_&_&_&Hok).
  cbv zeta in Hok. simpl in Hinf. rewrite Hinf in Hok.
  destruct (USGAN._train_model run_epoch tl vl s).2 as [[]|e] eqn:Hres.
  - by specialize (Hok eq_refl).
  - destruct (train_model_raises run_epoch tl vl s e Hres); subst; auto.
Qed.

End ReportFacts.

Section StepFacts.
Import BaseNN USGANSteps.
Context {state_dict T : Type}.
Variable to_device : T → T.
Variable G_steps D_steps : Z.
Variable summary_writer : bool.
Variable generator_step :
  state_dict → gmap string (input T) → result (fval * state_dict).
Variable discriminator_step :
  state_dict → gmap string (input T) → result (fval * state_dict).
Variable mean_rest : list fval → fval.
Variable str : exn → string.
Variable training_loader : nat → list (list T).
Local Abbreviation self_t := (BaseNNModel state_dict).
Local Abbreviation batch_body :=
  (USGANSteps.batch_body to_device G_steps D_steps summary_writer
     generator_step discriminator_step mean_rest).
Local Abbreviation batch_loop :=
  (USGANSteps.batch_loop to_device G_steps D_steps summary_writer
     generator_step discriminator_step mean_rest).
Local Abbreviation epoch_body_s :=
  (USGANSteps.epoch_body to_device G_steps D_steps summary_writer
     generator_step discriminator_step mean_rest str).
Local Abbreviation epoch_loop_s :=
  (USGANSteps.epoch_loop to_device G_steps D_steps summary_writer
     generator_step discriminator_step mean_rest str).
Local Abbreviation train_s :=
  (USGANSteps._train_model to_device G_steps D_steps summary_writer
     generator_step discriminator_step mean_rest str).
Local Abbreviation state_before :=
  (state_before to_device G_steps D_steps summary_writer
     generator_step discriminator_step mean_rest training_loader).
Local Abbreviation oracle :=
  (epoch_outcome_of to_device G_steps D_steps summary_writer
     generator_step discriminator_step mean_rest str training_loader).
Local Abbreviation batches_before := (batches_before training_loader).

(** One batch adds one value to each collector and one to the step
    count; the value added for the generator is NaN when the generator
    is not stepped on that batch. *)
Lemma batch_body_collects idx data sd loc sd' loc' :
  batch_body idx data (sd, loc) = ((sd', loc'), Ok ()) →
  ∃ g d,
    epoch_train_loss_G_collector loc' =
      epoch_train_loss_G_collector loc ++ [g] ∧
    epoch_train_loss_D_collector loc' =
      epoch_train_loss_D_collector loc ++ [d] ∧
    training_step loc' = S (training_step loc) ∧
    ((Z.of_nat idx mod G_steps)%Z ≠ 0%Z → g = NaN).
Proof.
  unfold USGANSteps.batch_body.
  destruct (USGAN_assemble_input_for_training to_device data)
    as [inputs|e]; [|done].
  unfold divides.
  destruct (G_steps =? 0)%Z; [done|].
  destruct (Z.of_nat idx mod G_steps =? 0)%Z eqn:HG.
  - destruct (generator_step sd inputs) as [[lG sdG]|e]; [|done]. simpl.
    destruct (D_steps =? 0)%Z; [done|].
    destruct (Z.of_nat idx mod D_steps =? 0)%Z.
    + destruct (discriminator_step sdG inputs) as [[lD sdD]|e]; [|done].
      simpl. intros [= <- <-]. eexists _, _. simpl.
      repeat split. intros Hne. by apply Z.eqb_eq in HG.
    + simpl. intros [= <- <-]. eexists _, _. simpl.
      repeat split. intros Hne. by apply Z.eqb_eq in HG.
  - simpl. destruct (D_steps =? 0)%Z; [done|].
    destruct (Z.of_nat idx mod D_steps =? 0)%Z.
    + destruct (discriminator_step sd inputs) as [[lD sdD]|e]; [|done].
      simpl. intros [= <- <-]. eexists _, _. simpl. repeat split.
    + simpl. intros [= <- <-]. eexists _, _. simpl. repeat split.
Qed.

Lemma batch_loop_collects : ∀ batches idx sd loc sd' loc',
  batch_loop idx batches (sd, loc) = ((sd', loc'), Ok ()) →
  ∃ gs ds,
    epoch_train_loss_G_collector loc' =
      epoch_train_loss_G_collector loc ++ gs ∧
    epoch_train_loss_D_collector loc' =
      epoch_train_loss_D_collector loc ++ ds ∧
    length gs = length batches ∧ length ds = length batches ∧
    training_step loc' = (training_step loc + length batches)%nat ∧
    (∀ i, (i < length batches)%nat →
       (Z.of_nat (idx + i) mod G_steps)%Z ≠ 0%Z → gs !! i = Some NaN).
Proof.
  induction batches as [|data batches IH]; intros idx sd loc sd' loc' Hrun.
  - simpl in Hrun. injection Hrun as <- <-. exists [], [].
    rewrite !app_nil_r. simpl. repeat split; [lia|]. intros i Hi. lia.
  - change (batch_loop idx (data :: batches) (sd, loc))
      with (match batch_body idx data (sd, loc) with
            | (st, Ok _) => batch_loop (S idx) batches st
            | (st, Raise e) => (st, Raise e)
            end) in Hrun.
    destruct (batch_body idx data (sd, loc)) as [[sd1 loc1] [[]|e]] eqn:Hb;
      [|done].
    destruct (batch_body_collects _ _ _ _ _ _ Hb) as (g&d&HG&HD&Hts&Hnan).
    destruct (IH _ _ _ _ _ Hrun) as (gs&ds&HG'&HD'&Hlg&Hld&Hts'&Hnan').
    exists (g :: gs), (d :: ds). rewrite HG', HD', HG, HD, <- !app_assoc.
    simpl. repeat split; [lia..|].
    intros [|i] Hi Hmod.
    + simpl. f_equal. apply Hnan. by rewrite Nat.add_0_r in Hmod.
    + simpl. apply Hnan'; [lia|]. by rewrite Nat.add_succ_comm.
Qed.

(** The outcome of an epoch, in terms of the state it leaves. *)
Lemma oracle_done sd0 e g d sd :
  oracle sd0 () e = EpochDone g d sd →
  ∃ loc, state_before sd0 (S e) = Some (sd, loc) ∧
         g = np_mean mean_rest (epoch_train_loss_G_collector loc) ∧
         d = np_mean mean_rest (epoch_train_loss_D_collector loc).
Proof.
  unfold epoch_outcome_of. simpl.
  destruct (state_before sd0 e) as [st|]; [|done].
  destruct (batch_loop 0 (training_loader e) st) as [[sd' loc] [[]|err]];
    [|done].
  intros [= <- <- <-]. by exists loc.
Qed.

(** The collectors are never emptied: at the start of an epoch they hold
    one value for every batch of the epochs before it. *)
Lemma state_before_lengths sd0 : ∀ e sd loc,
  state_before sd0 e = Some (sd, loc) →
  length (epoch_train_loss_G_collector loc) = batches_before e ∧
  length (epoch_train_loss_D_collector loc) = batches_before e ∧
  training_step loc = batches_before e.
Proof.
  induction e as [|e IH]; intros sd loc Hst.
  - injection Hst as <- <-. done.
  - simpl in Hst. destruct (state_before sd0 e) as [[sd1 loc1]|]; [|done].
    destruct (batch_loop 0 (training_loader e) (sd1, loc1))
      as [[sd2 loc2] [[]|err]] eqn:Hb; [|done].
    injection Hst as <- <-.
    destruct (IH _ _ eq_refl) as (HG&HD&Hts).
    destruct (batch_loop_collects _ _ _ _ _ _ Hb)
      as (gs&ds&HG'&HD'&Hlg&Hld&Hts'&_).
    unfold batches_before in *.
    rewrite seq_S, sum_list_with_app. simpl.
    rewrite HG', HD', !length_app, Hts'. lia.
Qed.

(** With two generator steps or more and a first epoch of two batches
    or more, the collector of the generator holds a NaN from the first
    epoch on. *)
Lemma state_before_nan sd0 :
  (2 ≤ G_steps)%Z → (2 ≤ length (training_loader 0))%nat →
  ∀ e sd loc, state_before sd0 (S e) = Some (sd, loc) →
              NaN ∈ epoch_train_loss_G_collector loc.
Proof.
  intros HG Hlen. induction e as [|e IH]; intros sd loc Hst.
  - simpl in Hst.
    destruct (batch_loop 0 (training_loader 0) (sd0, fresh_locals))
      as [[sd2 loc2] [[]|err]] eqn:Hb; [|done].
    injection Hst as <- <-.
    destruct (batch_loop_collects _ _ _ _ _ _ Hb)
      as (gs&ds&HG'&_&Hlg&_&_&Hnan).
    rewrite HG'. apply elem_of_app. right.
    apply (list_elem_of_lookup_2 _ 1%nat). apply Hnan; [lia|].
    simpl. rewrite Z.mod_1_l; lia.
  - change (state_before sd0 (S (S e)))
      with (match state_before sd0 (S e) with
            | Some st =>
                match batch_loop 0 (training_loader (S e)) st with
                | (st', Ok _) => Some st'
                | (_, Raise _) => None
                end
            | None => None
            end) in Hst.
    destruct (state_before sd0 (S e)) as [[sd1 loc1]|]; [|done].
    destruct (batch_loop 0 (training_loader (S e)) (sd1, loc1))
      as [[sd2 loc2] [[]|err]] eqn:Hb; [|done].
    injection Hst as <- <-.
    destruct (batch_loop_collects _ _ _ _ _ _ Hb) as (gs&ds&HG'&_).
    rewrite HG'. apply elem_of_app. left. by eapply IH.
Qed.

Lemma epoch_loop_s_cons e rest (st : self_t * locals) :
  epoch_loop_s training_loader (e :: rest) st =
    match (epoch_body_s training_loader e st).2 with
    | Next => epoch_loop_s training_loader rest
                (epoch_body_s training_loader e st).1
    | _ => epoch_body_s training_loader e st
    end.
Proof.
  simpl. by destruct (USGANSteps.epoch_body _ _ _ _ _ _ _ _ _ _ _)
    as [st' []].
Qed.

Lemma set_model_same (s : self_t) : set_model (model s) s = s.
Proof. by destruct s. Qed.

(** One epoch with its steps is one epoch of the loop over the epochs,
    the outcome of the epoch being what its steps come to. *)
Lemma epoch_body_refines sd0 a (self : self_t) loc :
  state_before sd0 a = Some (model self, loc) →
  (epoch_body_s training_loader a (self, loc)).2 =
    (USGAN.epoch_body (oracle sd0) () a self).2 ∧
  match (epoch_body_s training_loader a (self, loc)).2 with
  | Raised _ =>
      set_model (model (USGAN.epoch_body (oracle sd0) () a self).1)
        (epoch_body_s training_loader a (self, loc)).1.1 =
      (USGAN.epoch_body (oracle sd0) () a self).1
  | _ =>
      (epoch_body_s training_loader a (self, loc)).1.1 =
        (USGAN.epoch_body (oracle sd0) () a self).1 ∧
      state_before sd0 (S a) =
        Some (model (epoch_body_s training_loader a (self, loc)).1.1,
              (epoch_body_s training_loader a (self, loc)).1.2)
  end.
Proof.
  intros Hst.
  change (state_before sd0 (S a))
    with (match state_before sd0 a with
          | Some st =>
              match batch_loop 0 (training_loader a) st with
              | (st', Ok _) => Some st'
              | (_, Raise _) => None
              end
          | None => None
          end).
  unfold USGANSteps.epoch_body, USGAN.epoch_body, epoch_outcome_of.
  rewrite Hst. simpl (model (set_training true self)).
  destruct (batch_loop 0 (training_loader a) (model self, loc))
    as [[sd loc'] [[]|e]].
  - simpl. destruct (flt _ (best_loss self)).
    + cbn [fst snd]. split; [done|]. split; [done|].
      unfold _auto_save_model_if_necessary. simpl.
      by destruct (saving_path self), (model_saving_strategy self) as [[]|].
    + destruct (patience self - 1 =? 0)%Z; cbn [fst snd]; done.
  - cbn [fst snd]. split; [done|]. by destruct self.
Qed.

Lemma epoch_loop_refines sd0 : ∀ n a (self : self_t) loc,
  state_before sd0 a = Some (model self, loc) →
  (epoch_loop_s training_loader (seq a n) (self, loc)).2 =
    (USGAN.epoch_loop (oracle sd0) () (seq a n) self).2 ∧
  set_model (model (USGAN.epoch_loop (oracle sd0) () (seq a n) self).1)
    (epoch_loop_s training_loader (seq a n) (self, loc)).1.1 =
  (USGAN.epoch_loop (oracle sd0) () (seq a n) self).1.
Proof.
  induction n as [|n IH]; intros a self loc Hst.
  - simpl. split; [done|]. apply set_model_same.
  - change (seq a (S n)) with (a :: seq (S a) n).
    rewrite epoch_loop_s_cons, epoch_loop_cons.
    destruct (epoch_body_refines sd0 a self loc Hst) as [Hc Hrel].
    rewrite <- Hc.
    destruct (epoch_body_s training_loader a (self, loc)) as [[self' loc'] c].
    cbn [fst snd] in *.
    destruct c as [| |msg].
    + destruct Hrel as [<- Hst']. by apply IH.
    + destruct Hrel as [<- _]. split; [done|]. apply set_model_same.
    + done.
Qed.

Lemma train_steps_refine val_loader (s : self_t) :
  (train_s training_loader val_loader s).2 =
    (USGAN._train_model (oracle (model s)) () None s).2 ∧
  set_model (model (USGAN._train_model (oracle (model s)) () None s).1)
    (train_s training_loader val_loader s).1.1 =
  (USGAN._train_model (oracle (model s)) () None s).1.
Proof.
  rewrite train_model_unfold. cbv zeta.
  unfold USGANSteps._train_model.
  change {| training_step := 0; epoch_train_loss_G_collector := [];
            epoch_train_loss_D_collector := []; tb_file := [] |}
    with fresh_locals.
  change (epochs (set_best_model_dict None (set_best_loss PInf s)))
    with (epochs s).
  destruct (epoch_loop_refines (model s) (epochs s) 0%nat
              (set_best_model_dict None (set_best_loss PInf s))
              fresh_locals eq_refl) as [Hc Hrel].
  rewrite <- Hc, <- Hrel.
  destruct (epoch_loop_s training_loader (seq 0 (epochs s)) _)
    as [[self loc] c].
  cbn [fst snd].
  generalize (model (USGAN.epoch_loop (oracle (model s)) () (seq 0 (epochs s))
                       (set_best_model_dict None (set_best_loss PInf s))).1).
  intros m. destruct self as [ep pa op sp ms mo tr bl bm trc].
  destruct c as [| |msg]; cbn;
    [destruct (is_pinf bl); done..|].
  destruct bm; cbn; [destruct (is_pinf bl)|]; done.
Qed.

(** X16.  [_train_model] with the steps of its epochs is the loop over
    the epochs of [USGAN._train_model], each epoch giving the means of
    the two collectors and the parameters its steps leave, or the
    message of the exception raised in it: the two return or raise
    alike, and end with the same attributes but for the parameters a
    failed epoch leaves. *)
Theorem steps_refine_epochs val_loader (s : self_t) :
  (USGANSteps._train_model to_device G_steps D_steps summary_writer
     generator_step discriminator_step mean_rest str training_loader
     val_loader s).2 =
    (USGAN._train_model (oracle (model s)) () None s).2 ∧
  set_model (model (USGAN._train_model (oracle (model s)) () None s).1)
    (USGANSteps._train_model to_device G_steps D_steps summary_writer
     generator_step discriminator_step mean_rest str training_loader
     val_loader s).1.1 =
  (USGAN._train_model (oracle (model s)) () None s).1.
Proof. exact (train_steps_refine val_loader s). Qed.

(** X17.  With [G_steps] of two or more and two batches or more in the
    first epoch, the generator is not stepped on the second batch, the
    mean of its empty list of losses is NaN, the collector keeps it, and
    the loss of every epoch is NaN: the best loss never improves and
    [_train_model] raises [RuntimeError] or [ValueError], whatever the
    losses of the model are. *)
Theorem generator_steps_above_one_never_train val_loader (s : self_t) :
  (2 ≤ G_steps)%Z → (2 ≤ length (training_loader 0))%nat →
  (USGANSteps._train_model to_device G_steps D_steps summary_writer
     generator_step discriminator_step mean_rest str training_loader
     val_loader s).2 = Raise RuntimeError ∨
  (USGANSteps._train_model to_device G_steps D_steps summary_writer
     generator_step discriminator_step mean_rest str training_loader
     val_loader s).2 = Raise ValueError.
Proof.
  intros HG Hlen.
  destruct (train_steps_refine val_loader s) as [-> _].
  apply all_nan_never_returns. intros e g d sd Hrun.
  destruct (oracle_done _ _ _ _ _ Hrun) as (loc & Hst & -> & _).
  apply np_mean_nan. by eapply state_before_nan.
Qed.

(** X18.  The collectors of the losses are never emptied: the losses
    reported for epoch [e] are the means of one value for every batch
    since the start of the training, those of the epochs before [e]
    included. *)
Theorem losses_averaged_since_start val_loader (s : self_t) :
  ∃ new,
    reports (trace (USGANSteps._train_model to_device G_steps D_steps summary_writer
     generator_step discriminator_step mean_rest str training_loader
     val_loader s).1.1) =
      reports (trace s) ++ new ∧
    Forall (λ r, ∃ Gs Ds,
              r.1.2 = np_mean mean_rest Gs ∧ r.2 = np_mean mean_rest Ds ∧
              length Gs = batches_before (S r.1.1) ∧
              length Ds = batches_before (S r.1.1)) new.
Proof.
  destruct (train_steps_refine val_loader s) as [_ Hrel].
  destruct (train_model_reports (oracle (model s)) () None s)
    as (new & Hr & Hall).
  exists new. split.
  - rewrite <- Hr, <- Hrel. by destruct (train_s _ _ _).1.1.
  - eapply Forall_impl; [exact Hall|]. intros [[e g] d] [sd Hrun].
    simpl in *. destruct (oracle_done _ _ _ _ _ Hrun) as (loc & Hst & -> & ->).
    destruct (state_before_lengths _ _ _ _ Hst) as (HG & HD & _).
    by eexists _, _.
Qed.

End StepFacts.

(** ** Step 1 of [USGAN.fit] *)

Section FitFacts.
Import USGANFit.
Context {state_dict loader dataset array : Type}.
Variable run_epoch : loader → nat → epoch_outcome state_dict.
Variable files : gmap string (gmap string array).
Variable DatasetForUSGAN :
  set_source array → bool → string → result dataset.
Variable DataLoader : dataset → bool → loader.
Local Abbreviation fit :=
  (USGANFit.fit run_epoch files DatasetForUSGAN DataLoader).

(** X19.  A validation set can make [fit] fail but cannot change what it
    trains: with a validation set, [fit] either raises before any epoch,
    leaving the model as it was, or does exactly what it does without
    one.  A validation file that does not exist raises [OSError], and
    one without the array [X], [X_intact] or [indicating_mask] raises
    [KeyError] of the first of them that is missing. *)
Theorem validation_set_only_checked train_set val_set file_type
    (s : BaseNNModel state_dict) :
  (fit train_set (Some val_set) file_type s = fit train_set None file_type s ∨
   ∃ e, fit train_set (Some val_set) file_type s = (s, Raise e)) ∧
  (∀ training_set path,
     DatasetForUSGAN train_set false file_type = Ok training_set →
     val_set = PathSet path →
     match files !! path with
     | None => fit train_set (Some val_set) file_type s =
                 (s, Raise (OSError path))
     | Some hf =>
         (hf !! "X"%string = None →
          fit train_set (Some val_set) file_type s =
            (s, Raise (KeyError "X"))) ∧
         (is_Some (hf !! "X"%string) → hf !! "X_intact"%string = None →
          fit train_set (Some val_set) file_type s =
            (s, Raise (KeyError "X_intact"))) ∧
         (is_Some (hf !! "X"%string) → is_Some (hf !! "X_intact"%string) →
          hf !! "indicating_mask"%string = None →
          fit train_set (Some val_set) file_type s =
            (s, Raise (KeyError "indicating_mask")))
     end).
Proof.
  split.
  - unfold USGANFit.fit.
    destruct (DatasetForUSGAN train_set false file_type) as [ts|e];
      [|right; by eexists].
    match goal with
    | |- context [mbind ?f ?m] => destruct (mbind f m) as [[vl|]|e]
    end; [by left|by left|right; by eexists].
  - intros ts path Hts ->. unfold USGANFit.fit. rewrite Hts.
    unfold h5py_File. destruct (files !! path) as [hf|]; [|done].
    simpl. unfold dict_get.
    split; [|split].
    + intros ->. done.
    + intros [x ->] ->. done.
    + intros [x ->] [xi ->] ->. done.
Qed.

End FitFacts.

(** ** Instances *)

Lemma gap_sample_shape : shape 5 1 Examples.gap_sample.
Proof. split; [reflexivity|]. repeat constructor. Qed.

Lemma sample_shapes_witness :
  ∃ sample,
    DatasetForBRITS._fetch_data_from_array
      (DatasetForBRITS.__init__ 1 (DatasetForBRITS.Dict Examples.gap_store)
         true "h5py") 0 = Ok sample ∧
    Forall (tensor_shape 5 1) sample ∧ (7 ≤ length sample ≤ 8)%nat.
Proof.
  eexists. split; [reflexivity|].
  apply (sample_shapes 1 Examples.gap_files "gap.h5"%string
           Examples.gap_store true "h5py"%string 0%nat Examples.gap_sample
           5 1); [reflexivity|reflexivity|exact gap_sample_shape|].
  left. reflexivity.
Defined.

Lemma sample_entries_witness :
  ∃ sample fX fM,
    (DatasetForBRITS._fetch_data_from_file 1 Examples.gap_files
       (DatasetForBRITS.__init__ 1 (DatasetForBRITS.Path "gap.h5") false
          "h5py") 0).2 = Ok sample ∧
    sample !! 1%nat = Some (DatasetForBRITS.Features fX) ∧
    sample !! 2%nat = Some (DatasetForBRITS.Matrix fM) ∧
    entry fM 1 0 = Some 0%Z ∧ entry fX 1 0 = Some (Num 0) ∧
    entry fM 3 0 = Some 1%Z ∧ entry fX 3 0 = Some (Num 7).
Proof.
  eexists.
  destruct (sample_entries 1 Examples.gap_files "gap.h5"%string
              Examples.gap_store false "h5py"%string 0%nat
              Examples.gap_sample _
              eq_refl eq_refl (or_intror eq_refl))
    as (fX & fM & fD & bX & bM & bD & lbl & Heq & HM & HN & HX & _).
  exists fX, fM. split; [reflexivity|]. rewrite Heq.
  split; [reflexivity|]. split; [reflexivity|].
  rewrite !HM. split; [reflexivity|].
  split; [apply HN; reflexivity|]. split; [reflexivity|].
  apply HX; reflexivity.
Defined.

Lemma eager_lazy_agree_within_float32_witness :
  ∃ sample,
    DatasetForBRITS._fetch_data_from_array
      (DatasetForBRITS.__init__ 1 (DatasetForBRITS.Dict Examples.gap_store)
         true "h5py") 0 = Ok sample ∧
    (DatasetForBRITS._fetch_data_from_file 1 Examples.gap_files
       (DatasetForBRITS.__init__ 1 (DatasetForBRITS.Path "gap.h5") true "h5py")
       0).2 = Ok sample ∧
    (DatasetForBRITS._fetch_data_from_file 1 Examples.gap_files
       (DatasetForBRITS._fetch_data_from_file 1 Examples.gap_files
          (DatasetForBRITS.__init__ 1 (DatasetForBRITS.Path "gap.h5") true
             "h5py") 0).1 0).2 = Ok sample.
Proof.
  apply (eager_lazy_agree_within_float32 1 Examples.gap_files
           "gap.h5"%string Examples.gap_store true "h5py"%string 0%nat).
  - reflexivity.
  - repeat (apply Forall_cons_2 || apply Forall_nil_2);
      (split; [reflexivity|right; reflexivity]).
  - simpl. lia.
  - intros ys Hys. injection Hys as <-. simpl. lia.
Defined.

Lemma file_opened_once_witness :
  let self' :=
    (DatasetForBRITS._fetch_data_from_file 1 Examples.gap_files
       (DatasetForBRITS.__init__ 1 (DatasetForBRITS.Path "gap.h5") true "h5py")
       9).1 in
  DatasetForBRITS.file_handle self' = Some Examples.gap_store ∧
  DatasetForBRITS._fetch_data_from_file 1 ∅ self' 0 =
    (self',
     (DatasetForBRITS._fetch_data_from_file 1 Examples.gap_files
        (DatasetForBRITS.__init__ 1 (DatasetForBRITS.Path "gap.h5") true
           "h5py") 0).2).
Proof.
  destruct (file_opened_once 1 Examples.gap_files "gap.h5"%string
              Examples.gap_store true "h5py"%string 9%nat eq_refl)
    as [Hh Hlater].
  split; [exact Hh|]. apply Hlater.
Defined.

Lemma best_loss_is_least_witness :
  ∃ new,
    losses_logged
      (trace (USGAN._train_model Examples.improving_then_flat () None
                (Examples.fresh 10 2 None None)).1) = new ∧
    Forall (λ g, flt g (Num 1) = false) new ∧ Num 1 ∈ new.
Proof.
  destruct (best_loss_is_least Examples.improving_then_flat () None
              (Examples.fresh 10 2 None None)) as (new & Hl & Hall & Hin).
  exists new. split; [exact Hl|]. split; [exact Hall|].
  apply Hin. reflexivity.
Defined.

Lemma nonpositive_patience_never_stops_witness :
  epochs_logged
    (trace (USGAN._train_model Examples.improving_then_flat () None
              (Examples.fresh 6 0 None None)).1) = [0; 1; 2; 3; 4; 5]%nat.
Proof.
  apply (nonpositive_patience_never_stops Examples.improving_then_flat ()
           None (Examples.fresh 6 0 None None)).
  - simpl. lia.
  - simpl. lia.
  - intros e He. by eexists _, _, _.
Defined.

Lemma usgan_inputs_witness :
  USGAN_assemble_input_for_training S MoreExamples.eight = Raise ValueError ∧
  ∃ inputs f b,
    USGAN_assemble_input_for_training S MoreExamples.seven = Ok inputs ∧
    inputs !! "forward"%string = Some (Group f) ∧
    inputs !! "backward"%string = Some (Group b) ∧
    f !! "deltas"%string = Some 4%nat ∧ b !! "X"%string = Some 5%nat.
Proof.
  destruct (usgan_inputs S MoreExamples.eight) as (Hbad & _).
  destruct (usgan_inputs S MoreExamples.seven) as (_ & Hgood & _).
  split; [apply Hbad; simpl; lia|].
  destruct (Hgood eq_refl)
    as (inputs & f & b & Heq & _ & _ & Hf & Hb & _ & _ & Hfd & HbX & _).
  exists inputs, f, b. repeat split; assumption.
Defined.

Lemma brits_inputs_witness :
  BRITS_assemble_input_for_training S MoreExamples.seven = Raise ValueError ∧
  BRITS_assemble_input_for_testing S MoreExamples.eight = Raise ValueError ∧
  ∃ inputs,
    BRITS_assemble_input_for_training S MoreExamples.eight = Ok inputs ∧
    inputs !! "label"%string = Some (Tensor 8%nat).
Proof.
  destruct (brits_inputs S MoreExamples.seven) as (Hbad & _).
  destruct (brits_inputs S MoreExamples.eight) as (_ & Hbad' & Hgood & _).
  split; [apply Hbad; simpl; lia|]. split; [apply Hbad'; simpl; lia|].
  destruct (Hgood eq_refl) as (inputs & Heq & _ & Hl).
  exists inputs. split; assumption.
Defined.

Lemma csdi_inputs_witness :
  CSDI_assemble_input_for_training S (Nat.mul 10) MoreExamples.eight =
    Raise ValueError ∧
  ∃ inputs,
    CSDI_assemble_input_for_training S (Nat.mul 10) MoreExamples.seven =
      Ok inputs ∧
    inputs !! "indices"%string = None ∧
    inputs !! "observed_data"%string = Some 20%nat ∧
    inputs !! "observed_tp"%string = Some 4%nat.
Proof.
  destruct (csdi_inputs S (Nat.mul 10) MoreExamples.eight) as (Hbad & _).
  destruct (csdi_inputs S (Nat.mul 10) MoreExamples.seven) as (_ & Hgood & _).
  split; [apply Hbad; simpl; lia|].
  destruct (Hgood eq_refl) as (inputs & Heq & _ & Hi & Hd & _ & Htp & _).
  exists inputs. repeat split; assumption.
Defined.

Lemma samples_fit_the_inputs_witness :
  (∃ sample inputs,
     DatasetForBRITS._fetch_data_from_array
       (DatasetForBRITS.__init__ 1 (DatasetForBRITS.Dict Examples.gap_store)
          false "h5py") 0 = Ok sample ∧
     BRITS_assemble_input_for_testing id sample = Ok inputs) ∧
  (∃ sample inputs,
     DatasetForBRITS._fetch_data_from_array
       (DatasetForBRITS.__init__ 1 (DatasetForBRITS.Dict Examples.gap_store)
          true "h5py") 0 = Ok sample ∧
     BRITS_assemble_input_for_training id sample = Ok inputs ∧
     inputs !! "label"%string = Some (Tensor (DatasetForBRITS.Scalar 1))).
Proof.
  destruct (samples_fit_the_inputs 1 id Examples.gap_files "gap.h5"%string
              Examples.gap_store "h5py"%string 0%nat Examples.gap_sample
              eq_refl eq_refl) as [Hoff Hon].
  split.
  - eexists. destruct (Hoff _ (or_introl eq_refl)) as [[inputs Hi] _].
    exists inputs. split; [reflexivity|exact Hi].
  - eexists. pose proof (Hon _ (or_introl eq_refl)) as H. simpl in H.
    destruct H as (inputs & l & Hl & Hi & Hlab & _).
    injection Hl as <-. exists inputs. split; [reflexivity|]. by split.
Defined.

Lemma predict_keeps_order_witness :
  (USGAN.predict MoreExamples.loader_of (MoreExamples.adding "imputed_data")
     MoreExamples.concat_all [[1; 2]; [3]]%nat "h5py"
     (Examples.fresh 1 1 None None)).2 =
    Ok {[ "imputation"%string := [1; 2; 3]%nat ]}.
Proof.
  destruct (predict_keeps_order MoreExamples.loader_of
              (MoreExamples.adding "imputed_data")
              (λ sd b (_ : nat), MoreExamples.adding "imputed_data" sd b)
              MoreExamples.concat_all [[1; 2]; [3]]%nat "h5py"%string
              (Examples.fresh 1 1 None None) [[1; 2]; [3]]%nat
              (fmap (λ x, x + 0)%nat) eq_refl) as ((_ & Hres) & _).
  apply Hres. intros b Hb.
  apply elem_of_cons in Hb as [->|Hb];
    [|apply list_elem_of_singleton in Hb as ->];
    (eexists; split; [reflexivity|]; by simplify_map_eq).
Defined.

Lemma predict_first_failure_witness :
  (USGAN.predict MoreExamples.loader_of (MoreExamples.adding "imputed_data")
     MoreExamples.concat_all [[1; 2]; [0; 4]; [5]]%nat "h5py"
     (Examples.fresh 1 1 None None)).2 = Raise (Exception "bad batch") ∧
  (USGAN.predict MoreExamples.loader_of (MoreExamples.adding "imputed_data")
     MoreExamples.concat_all [[1; 2]; []; [5]]%nat "h5py"
     (Examples.fresh 1 1 None None)).2 = Raise (KeyError "imputed_data").
Proof.
  assert (∀ x : list nat, x ∈ [[1; 2]]%nat →
            ∃ r v, MoreExamples.adding "imputed_data" 0 x = Ok r ∧
                   r !! "imputed_data"%string = Some v) as Hpre.
  { intros x Hx. apply list_elem_of_singleton in Hx as ->.
    eexists _, _. split; [reflexivity|]. by simplify_map_eq. }
  split.
  - destruct (predict_first_failure MoreExamples.loader_of
                (MoreExamples.adding "imputed_data") MoreExamples.concat_all
                [[1; 2]; [0; 4]; [5]]%nat "h5py"%string
                (Examples.fresh 1 1 None None) [[1; 2]]%nat [0; 4]%nat
                [[5]]%nat eq_refl) as [Hu _].
    destruct (Hu Hpre) as [Hraise _]. by apply Hraise.
  - destruct (predict_first_failure MoreExamples.loader_of
                (MoreExamples.adding "imputed_data") MoreExamples.concat_all
                [[1; 2]; []; [5]]%nat "h5py"%string
                (Examples.fresh 1 1 None None) [[1; 2]]%nat []
                [[5]]%nat eq_refl) as [Hu _].
    destruct (Hu Hpre) as [_ Hkey]. by apply (Hkey ∅).
Defined.

Lemma generator_steps_above_one_never_train_witness :
  (USGANSteps._train_model id 2 1 false MoreExamples.unit_step
     MoreExamples.unit_step (λ _, Num 0) (λ _, ""%string)
     MoreExamples.two_batches None (Examples.fresh 3 5 None None)).2 =
    Raise RuntimeError ∨
  (USGANSteps._train_model id 2 1 false MoreExamples.unit_step
     MoreExamples.unit_step (λ _, Num 0) (λ _, ""%string)
     MoreExamples.two_batches None (Examples.fresh 3 5 None None)).2 =
    Raise ValueError.
Proof.
  apply (generator_steps_above_one_never_train id 2 1 false
           MoreExamples.unit_step MoreExamples.unit_step (λ _, Num 0)
           (λ _, ""%string) MoreExamples.two_batches None
           (Examples.fresh 3 5 None None)).
  - lia.
  - simpl. lia.
Defined.

Lemma validation_set_only_checked_witness :
  USGANFit.fit Examples.improving_then_flat
    {[ "val.h5"%string := {[ "X"%string := 1%nat ]} ]}
    (λ _ _ _, Ok ()) (λ _ _, ())
    (USGANFit.DictSet ∅) (Some (USGANFit.PathSet "val.h5")) "h5py"
    (Examples.fresh 5 2 None None) =
  (Examples.fresh 5 2 None None, Raise (KeyError "X_intact")).
Proof.
  pose proof (validation_set_only_checked Examples.improving_then_flat
                {[ "val.h5"%string := {[ "X"%string := 1%nat ]} ]}
                (λ _ _ _, Ok ()) (λ _ _, ())
                (USGANFit.DictSet ∅) (USGANFit.PathSet "val.h5")
                "h5py"%string (Examples.fresh 5 2 None None)) as [_ H].
  specialize (H () "val.h5"%string eq_refl eq_refl).
  rewrite lookup_singleton_eq in H. destruct H as (_ & H & _).
  apply H; [by eexists|reflexivity].
Defined.

(** With one generator step per batch the same run trains: three epochs
    of two batches, each batch stepping the generator and then the
    discriminator. *)
Example steps_with_one_generator_step :
  let r := USGANSteps._train_model id 1 1 true MoreExamples.unit_step
             MoreExamples.unit_step (λ _, Num 1) (λ _, ""%string)
             MoreExamples.two_batches None (Examples.fresh 3 5 None None) in
  r.2 = Ok () ∧ model r.1.1 = 12%nat ∧ best_model_dict r.1.1 = Some 4%nat ∧
  USGANSteps.training_step r.1.2 = 6%nat ∧
  length (USGANSteps.tb_file r.1.2) = 6%nat.
Proof. vm_compute. repeat split. Qed.
